(** * SAKSHAM PRAVESH backend: authentication, role gate and route handlers

    A shallow embedding of [src/main.py] and [src/schemas.py].

    Python values are an inductive type, dicts and MongoDB documents are
    finite maps from field names to values, the module-level store handle
    [db] is an optional map from collection names to document lists, and
    every handler is a computation in a small state-and-exception monad
    over the world it runs in (store, clock, salt source).

    The third-party libraries the handlers call (PyJWT, passlib, FastAPI's
    bearer scheme, the document store driver) are modelled in their own
    modules, at the level of the calls [main.py] makes; the cryptographic
    primitives themselves stay abstract in a record of primitives. *)

From Stdlib Require Import ZArith Lia.
From stdpp Require Import base option list strings gmap fin_maps.

Local Open Scope Z_scope.
Local Open Scope string_scope.

(** ** Python values, exceptions and the handler monad *)

Module Py.

(** The values that occur in request payloads, token claims and stored
    documents.  [VTime] is a [datetime], counted in whole seconds since
    the epoch (the resolution of a token's [exp] claim). *)
Inductive value : Type :=
| VNone
| VBool (b : bool)
| VInt (n : Z)
| VStr (s : string)
| VTime (t : Z)
| VStrs (l : list string).

#[global] Instance value_eq_dec : EqDecision value.
Proof. solve_decision. Defined.

(** Truth value testing: [bool(v)]. *)
Definition truthy (v : value) : bool :=
  match v with
  | VNone => false
  | VBool b => b
  | VInt n => negb (Z.eqb n 0)
  | VStr s => negb (String.eqb s EmptyString)
  | VTime _ => true
  | VStrs l => match l with [] => false | _ => true end
  end.

(** [d.get(k)]: the value under [k], or [None]. *)
Definition get (d : gmap string value) (k : string) : value :=
  default VNone (d !! k).

(** [d.get(k, dflt)]. *)
Definition get_or (d : gmap string value) (k : string) (dflt : value) : value :=
  default dflt (d !! k).

(** Truth value of an optional dict, as in [if not user]: [None] and
    the empty dict are both falsy. *)
Definition truthy_dict (o : option (gmap string value)) : bool :=
  match o with
  | None => false
  | Some d => negb (bool_decide (d = ∅))
  end.

(** The exceptions that can travel through the handlers. *)
Inductive exn : Type :=
| HTTPException (status_code : Z) (detail : string)
| ExpiredSignatureError
| ImmatureSignatureError
| InvalidSignatureError
| InvalidAlgorithmError
| InvalidAudienceError
| DecodeError
| UnknownHashError
| MalformedHashError
| NullPasswordError
| PasswordSizeError
| KeyError (key : string)
| TypeError
| ValidationError
| StoreError (msg : string).

#[global] Instance exn_eq_dec : EqDecision exn.
Proof. solve_decision. Defined.

End Py.
Export Py.

Abbreviation dict := (gmap string value).

(** The world a request runs in: the module-level store handle [db]
    imported from [database.py] (a store, or [None] when the store is
    not configured), the reading of [datetime.utcnow()] in whole epoch
    seconds, and the salt the password hasher draws. *)
Record World : Type := mkWorld {
  db : option (gmap string (list dict));
  utcnow : Z;
  urandom : string
}.

Definition with_db (w : World) (d : option (gmap string (list dict))) : World :=
  {| db := d; utcnow := utcnow w; urandom := urandom w |}.

(** Handlers are computations that read and update the world and either
    return a value or raise an exception; what was written before an
    exception is raised stays written. *)
Definition M (A : Type) : Type := World -> (exn + A) * World.

Definition ret {A} (a : A) : M A := fun w => (inr a, w).

Definition raise {A} (e : exn) : M A := fun w => (inl e, w).

Definition bind {A B} (m : M A) (f : A -> M B) : M B :=
  fun w => match m w with
           | (inr a, w') => f a w'
           | (inl e, w') => (inl e, w')
           end.

(** [try: m except ...: h e]. *)
Definition try_except {A} (m : M A) (h : exn -> M A) : M A :=
  fun w => match m w with
           | (inr a, w') => (inr a, w')
           | (inl e, w') => h e w'
           end.

Definition lift {A} (r : exn + A) : M A := fun w => (r, w).

Definition read {A} (f : World -> A) : M A := fun w => (inr (f w), w).

Declare Scope py_scope.
Delimit Scope py_scope with py.
Notation "x <- m ;; k" := (bind m (fun x => k))
  (at level 100, m at next level, right associativity) : py_scope.
Notation "m ;;; k" := (bind m (fun _ => k))
  (at level 100, right associativity) : py_scope.
Local Open Scope py_scope.

(** ** The document store

    [database.py], which provides the handle [db] and the helpers
    [create_document] and [get_documents], is not among the sources.
    The store keeps each entity as a record in a named collection; the
    handlers need point lookup by field values and insert. *)
Module Store.

(** A document matches an equality filter when it carries every field of
    the filter with the same value. *)
Definition matches (flt d : dict) : bool := bool_decide (flt ⊆ d).

(** [db.<name>]: a collection that was never written is empty. *)
Definition collection (s : gmap string (list dict)) (name : string) : list dict :=
  default [] (s !! name).

(** [db.<name>.find_one(flt)]: the first matching document in insertion
    order, or [None]. *)
Definition find_one (s : gmap string (list dict)) (name : string) (flt : dict)
  : option dict :=
  List.find (matches flt) (collection s name).

(** [db.<name>.insert_one(d)]. *)
Definition insert_one (s : gmap string (list dict)) (name : string) (d : dict)
  : gmap string (list dict) :=
  <[name := (collection s name ++ [d])%list]> s.

Definition unavailable : exn := StoreError "Database not available".

(** Modelled from the spec: [create_document(name, record)] of
    [database.py], which is not among the sources.  It stores the
    record's fields as a new document of the named collection; without
    a store the operation fails with an error that propagates to the
    caller. *)
Definition create_document (name : string) (d : dict) : M unit :=
  fun w => match db w with
           | None => (inl unavailable, w)
           | Some s => (inr tt, with_db w (Some (insert_one s name d)))
           end.

(** Modelled from the spec: [get_documents(name)] of [database.py],
    which is not among the sources.  It returns all records of the
    named collection, in store order, and fails like [create_document]
    without a store. *)
Definition get_documents (name : string) : M (list dict) :=
  fun w => match db w with
           | None => (inl unavailable, w)
           | Some s => (inr (collection s name), w)
           end.

End Store.
Export Store.

(** ** PyJWT, as [main.py] calls it

    A bearer token is the compact serialisation of a signed claims set.
    The model keeps what the serialisation carries: the algorithm named
    in the header, the claims and the signature; a string that does not
    split and decode into these three parts is [Opaque].  The signing
    function is a parameter: [mac key algorithm claims] stands for the
    signature the named algorithm computes over the serialised header
    and claims. *)
Module Jwt.

Record jws : Type := mkJws {
  alg : string;
  payload : dict;
  signature : string
}.

Inductive token : Type :=
| Opaque (raw : string)
| Compact (j : jws).

Section WithMac.

Variable mac : string -> string -> dict -> string.

(** [jwt.encode] turns the [datetime] under a registered time claim into
    whole epoch seconds. *)
Definition numeric_date (v : value) : value :=
  match v with
  | VTime t => VInt t
  | _ => v
  end.

Definition numeric_dates (p : dict) : dict :=
  alter numeric_date "exp" (alter numeric_date "iat" (alter numeric_date "nbf" p)).

Definition json_serialisable (v : value) : bool :=
  match v with
  | VTime _ => false
  | _ => true
  end.

(** [jwt.encode(claims, key, algorithm=algorithm)]. *)
Definition encode (claims : dict) (key algorithm : string) : M token :=
  let p := numeric_dates claims in
  if bool_decide (map_Forall (fun _ v => json_serialisable v = true) p)
  then ret (Compact {| alg := algorithm; payload := p;
                       signature := mac key algorithm p |})
  else raise TypeError.

(** Validation of the registered claims [nbf], [exp] and [aud] (the
    tokens this application issues carry [sub] and [exp] only).  A
    token is expired from the instant its [exp] is reached; a time claim
    that is not a number is taken as undecodable. *)
Definition validate_exp (p : dict) (now : Z) : exn + unit :=
  match p !! "exp" with
  | None => inr tt
  | Some (VInt e) => if Z.leb e now then inl ExpiredSignatureError else inr tt
  | Some _ => inl DecodeError
  end.

Definition validate_nbf (p : dict) (now : Z) : exn + unit :=
  match p !! "nbf" with
  | None => inr tt
  | Some (VInt n) => if Z.ltb now n then inl ImmatureSignatureError else inr tt
  | Some _ => inl DecodeError
  end.

(** No audience is passed by the caller, so a token that names one is
    refused. *)
Definition validate_aud (p : dict) : exn + unit :=
  match p !! "aud" with
  | None => inr tt
  | Some a => if truthy a then inl InvalidAudienceError else inr tt
  end.

Definition decode_at (now : Z) (t : token) (key : string) (algorithms : list string)
  : exn + dict :=
  match t with
  | Opaque _ => inl DecodeError
  | Compact j =>
      if negb (bool_decide (alg j ∈ algorithms)) then inl InvalidAlgorithmError
      else if negb (String.eqb (signature j) (mac key (alg j) (payload j)))
      then inl InvalidSignatureError
      else match validate_nbf (payload j) now with
           | inl e => inl e
           | inr _ =>
               match validate_exp (payload j) now with
               | inl e => inl e
               | inr _ =>
                   match validate_aud (payload j) with
                   | inl e => inl e
                   | inr _ => inr (payload j)
                   end
               end
           end
  end.

(** [jwt.decode(token, key, algorithms=algorithms)], at the current
    time. *)
Definition decode (t : token) (key : string) (algorithms : list string) : M dict :=
  fun w => (decode_at (utcnow w) t key algorithms, w).

End WithMac.

End Jwt.

(** ** passlib's [CryptContext(schemes=["bcrypt"])]

    The bcrypt computation itself is a parameter: [digest salt password]
    is the hash string, or the exception the handler raises on a
    password it refuses (one with a NUL byte, one over the size limit);
    [check password h] is what the bcrypt handler answers on a hash
    string it has identified as its own (it raises on a string it cannot
    parse and on a password it refuses). *)
Module Passlib.

Definition bcrypt_idents : list string := ["$2$"; "$2a$"; "$2x$"; "$2y$"; "$2b$"].

(** A hash string belongs to the scheme when it starts with one of its
    identifiers. *)
Definition identify (h : string) : bool :=
  existsb (fun i => String.prefix i h) bcrypt_idents.

Section WithBcrypt.

Variable digest : string -> string -> exn + string.
Variable check : string -> string -> exn + bool.

(** [pwd_context.hash(password)]. *)
Definition hash (password : string) : M string :=
  fun w => (digest (urandom w) password, w).

(** [pwd_context.verify(password, hashed)]: [None] verifies as false, a
    string of no known scheme raises. *)
Definition verify (password : string) (hashed : value) : M bool :=
  match hashed with
  | VNone => ret false
  | VStr h => if identify h then lift (check password h) else raise UnknownHashError
  | _ => raise TypeError
  end.

End WithBcrypt.

End Passlib.

(** ** FastAPI's [OAuth2PasswordBearer] *)
Module Security.

(** The value of an [Authorization] header, split at its first space. *)
Record authorization : Type := mkAuthorization {
  scheme : string;
  param : Jwt.token
}.

Definition lower_ascii (c : Ascii.ascii) : Ascii.ascii :=
  let n := Ascii.N_of_ascii c in
  if (N.leb 65 n && N.leb n 90)%bool then Ascii.ascii_of_N (n + 32) else c.

Fixpoint lower (s : string) : string :=
  match s with
  | EmptyString => EmptyString
  | String c r => String (lower_ascii c) (lower r)
  end.

(** The dependency [oauth2_scheme]: the bearer credentials of the
    request, or 401 when the header is missing or of another scheme. *)
Definition oauth2_scheme (header : option authorization) : M Jwt.token :=
  match header with
  | None => raise (HTTPException 401 "Not authenticated")
  | Some a =>
      if String.eqb (lower (scheme a)) "bearer" then ret (param a)
      else raise (HTTPException 401 "Not authenticated")
  end.

End Security.

(** ** Schemas ([src/schemas.py])

    Each model is a record; [model_dump] is the document written to the
    store.  [Optional] fields are options, [EmailStr] fields are strings
    that passed validation before the handler runs. *)

Definition opt_str (o : option string) : value :=
  match o with
  | Some s => VStr s
  | None => VNone
  end.

Definition opt_time (o : option Z) : value :=
  match o with
  | Some t => VTime t
  | None => VNone
  end.

Module User.
Record t : Type := mk {
  name : string;
  email : string;
  phone : option string;
  password_hash : option string;
  role : string;
  is_verified : bool
}.
(** [User(name=.., email=.., password_hash=..)]: the other fields take
    their defaults. *)
Definition make (name email password_hash : string) : t :=
  {| name := name; email := email; phone := None;
     password_hash := Some password_hash; role := "user"; is_verified := false |}.
Definition model_dump (u : t) : dict :=
  <["name" := VStr (name u)]> (<["email" := VStr (email u)]>
  (<["phone" := opt_str (phone u)]> (<["password_hash" := opt_str (password_hash u)]>
  (<["role" := VStr (role u)]> (<["is_verified" := VBool (is_verified u)]> ∅))))).
End User.

Module OTPRequest.
Record t : Type := mk {
  channel : string;
  target : string;
  code : string;
  purpose : string;
  expires_at : Z;
  verified : bool
}.
Definition model_dump (r : t) : dict :=
  <["channel" := VStr (channel r)]> (<["target" := VStr (target r)]>
  (<["code" := VStr (code r)]> (<["purpose" := VStr (purpose r)]>
  (<["expires_at" := VTime (expires_at r)]> (<["verified" := VBool (verified r)]> ∅))))).
End OTPRequest.

Module Lead.
Record t : Type := mk {
  name : string;
  email : string;
  phone : option string;
  source : option string;
  message : option string;
  status : string
}.
Definition model_dump (l : t) : dict :=
  <["name" := VStr (name l)]> (<["email" := VStr (email l)]>
  (<["phone" := opt_str (phone l)]> (<["source" := opt_str (source l)]>
  (<["message" := opt_str (message l)]> (<["status" := VStr (status l)]> ∅))))).
End Lead.

Module Appointment.
Record t : Type := mk {
  user_email : option string;
  name : string;
  phone : option string;
  package_id : option string;
  date : string;
  time : string;
  notes : option string;
  status : string
}.
Definition model_dump (a : t) : dict :=
  <["user_email" := opt_str (user_email a)]> (<["name" := VStr (name a)]>
  (<["phone" := opt_str (phone a)]> (<["package_id" := opt_str (package_id a)]>
  (<["date" := VStr (date a)]> (<["time" := VStr (time a)]>
  (<["notes" := opt_str (notes a)]> (<["status" := VStr (status a)]> ∅))))))).
End Appointment.

Module Package.
Record t : Type := mk {
  slug : string;
  title : string;
  description : string;
  features : list string;
  price_inr : Z;
  is_popular : bool
}.
Definition model_dump (p : t) : dict :=
  <["slug" := VStr (slug p)]> (<["title" := VStr (title p)]>
  (<["description" := VStr (description p)]> (<["features" := VStrs (features p)]>
  (<["price_inr" := VInt (price_inr p)]> (<["is_popular" := VBool (is_popular p)]> ∅))))).
End Package.

Module BlogPost.
Record t : Type := mk {
  title : string;
  slug : string;
  excerpt : option string;
  content : string;
  author : string;
  tags : list string;
  published : bool;
  published_at : option Z
}.
Definition model_dump (p : t) : dict :=
  <["title" := VStr (title p)]> (<["slug" := VStr (slug p)]>
  (<["excerpt" := opt_str (excerpt p)]> (<["content" := VStr (content p)]>
  (<["author" := VStr (author p)]> (<["tags" := VStrs (tags p)]>
  (<["published" := VBool (published p)]>
  (<["published_at" := opt_time (published_at p)]> ∅))))))).
End BlogPost.

(** ** Configuration and primitives

    What [main.py] takes from its environment and from the libraries
    below the level of this model: the signing secret, the signature and
    bcrypt computations, and the validation that builds a [Package] or a
    [BlogPost] from a stored document. *)
Record Env : Type := mkEnv {
  JWT_SECRET : string;
  hmac : string -> string -> dict -> string;
  bcrypt_digest : string -> string -> exn + string;
  bcrypt_check : string -> string -> exn + bool;
  package_validate : dict -> exn + Package.t;
  blogpost_validate : dict -> exn + BlogPost.t
}.

(** ** The application ([src/main.py]) *)

Import Security.

Definition JWT_ALGO : string := "HS256".
Definition TOKEN_EXPIRE_MINUTES : Z := 60 * 24.

(** [timedelta(minutes=m)], in seconds. *)
Definition timedelta_minutes (m : Z) : Z := 60 * m.

(** The response model of the two credential routes. *)
Record Token : Type := mkToken {
  access_token : Jwt.token;
  token_type : string
}.

Record OTPStart : Type := mkOTPStart {
  start_channel : string;
  start_target : string;
  start_purpose : string
}.

Record OTPVerify : Type := mkOTPVerify {
  verify_target : string;
  verify_code : string;
  verify_purpose : string
}.

(** [d[k]]. *)
Definition subscript (d : dict) (k : string) : M value :=
  match d !! k with
  | Some v => ret v
  | None => raise (KeyError k)
  end.

(** [[f(d) for d in docs]], stopping at the first exception. *)
Fixpoint for_each {A} (f : dict -> exn + A) (docs : list dict) : M (list A) :=
  match docs with
  | [] => ret []
  | d :: rest =>
      a <- lift (f d) ;;
      r <- for_each f rest ;;
      ret (a :: r)
  end.

Section App.

Variable env : Env.

Definition hash_password (password : string) : M string :=
  Passlib.hash (bcrypt_digest env) password.

Definition verify_password (password : string) (hashed : value) : M bool :=
  Passlib.verify (bcrypt_check env) password hashed.

(** [expires_delta or timedelta(minutes=TOKEN_EXPIRE_MINUTES)]: a zero
    delta is falsy and gives way to the default as well.  The sum
    [utcnow() + delta] is taken as it is while it stays a [datetime];
    a sum outside the range of [datetime], on which Python raises
    [OverflowError], is not covered. *)
Definition create_token (data : dict) (expires_delta : option Z) : M Jwt.token :=
  let to_encode := data in
  now <- read utcnow ;;
  let delta := match expires_delta with
               | Some d => if Z.eqb d 0 then timedelta_minutes TOKEN_EXPIRE_MINUTES else d
               | None => timedelta_minutes TOKEN_EXPIRE_MINUTES
               end in
  let expire := now + delta in
  let to_encode := <["exp" := VTime expire]> to_encode in
  Jwt.encode (hmac env) to_encode (JWT_SECRET env) JWT_ALGO.

(** The handlers of the [except] clauses of [get_current_user]:
    [HTTPException] is an [Exception], so the 401 raised inside the
    [try] block is re-raised as "Invalid token" too. *)
Definition get_current_user_except (e : exn) : M dict :=
  match e with
  | ExpiredSignatureError => raise (HTTPException 401 "Token expired")
  | _ => raise (HTTPException 401 "Invalid token")
  end.

Definition get_current_user (token : Jwt.token) : M dict :=
  try_except
    (payload <- Jwt.decode (hmac env) token (JWT_SECRET env) [JWT_ALGO] ;;
     let email := get payload "sub" in
     if negb (truthy email) then raise (HTTPException 401 "Invalid token")
     else
       d <- read db ;;
       let user := match d with
                   | Some s => find_one s "user" {["email" := email]}
                   | None => None
                   end in
       if negb (truthy_dict user) then raise (HTTPException 401 "User not found")
       else
         let u := default ∅ user in
         user_email <- subscript u "email" ;;
         ret (<["email" := user_email]> (<["name" := get u "name"]>
              (<["role" := get_or u "role" (VStr "user")]> ∅))))
    get_current_user_except.

Definition not_configured : exn := HTTPException 500 "Database not configured".

Definition register (name email password : string) : M Token :=
  d <- read db ;;
  match d with
  | None => raise not_configured
  | Some s =>
      if truthy_dict (find_one s "user" {["email" := VStr email]})
      then raise (HTTPException 400 "Email already registered")
      else
        h <- hash_password password ;;
        let user := User.make name email h in
        create_document "user" (User.model_dump user) ;;;
        token <- create_token {["sub" := VStr email]} None ;;
        ret {| access_token := token; token_type := "bearer" |}
  end.

Definition login (username password : string) : M Token :=
  d <- read db ;;
  match d with
  | None => raise not_configured
  | Some s =>
      let user := find_one s "user" {["email" := VStr username]} in
      if negb (truthy_dict user)
      then raise (HTTPException 400 "Incorrect email or password")
      else
        let u := default ∅ user in
        ok <- verify_password password (get_or u "password_hash" (VStr EmptyString)) ;;
        if negb ok then raise (HTTPException 400 "Incorrect email or password")
        else
          sub <- subscript u "email" ;;
          token <- create_token {["sub" := sub]} None ;;
          ret {| access_token := token; token_type := "bearer" |}
  end.

Definition otp_start (body : OTPStart) : M dict :=
  d <- read db ;;
  match d with
  | None => raise not_configured
  | Some _ =>
      now <- read utcnow ;;
      let record := {| OTPRequest.channel := start_channel body;
                       OTPRequest.target := start_target body;
                       OTPRequest.code := "123456";
                       OTPRequest.purpose := start_purpose body;
                       OTPRequest.expires_at := now + timedelta_minutes 10;
                       OTPRequest.verified := false |} in
      create_document "otprequest" (OTPRequest.model_dump record) ;;;
      ret (<["sent" := VBool true]> (<["dev_code" := VStr "123456"]> ∅))
  end.

Definition otp_filter (body : OTPVerify) : dict :=
  <["target" := VStr (verify_target body)]> (<["code" := VStr (verify_code body)]>
  (<["purpose" := VStr (verify_purpose body)]> ∅)).

Definition otp_verify (body : OTPVerify) : M dict :=
  d <- read db ;;
  match d with
  | None => raise not_configured
  | Some s =>
      let req := find_one s "otprequest" (otp_filter body) in
      if negb (truthy_dict req) then raise (HTTPException 400 "Invalid code")
      else ret {["verified" := VBool true]}
  end.

Definition list_packages : M (list Package.t) :=
  d <- read db ;;
  match d with
  | None => ret []
  | Some _ =>
      docs <- get_documents "package" ;;
      for_each (fun doc => package_validate env (delete "_id" doc)) docs
  end.

Definition forbidden : exn := HTTPException 403 "Forbidden".

Definition create_package (pkg : Package.t) (user : dict) : M dict :=
  if negb (bool_decide (get user "role" = VStr "admin")) then raise forbidden
  else
    create_document "package" (Package.model_dump pkg) ;;;
    ret {["ok" := VBool true]}.

Definition list_posts : M (list BlogPost.t) :=
  d <- read db ;;
  match d with
  | None => ret []
  | Some _ =>
      docs <- get_documents "blogpost" ;;
      for_each (fun doc => blogpost_validate env (delete "_id" doc)) docs
  end.

Definition create_post (post : BlogPost.t) (user : dict) : M dict :=
  if negb (bool_decide (get user "role" = VStr "admin")) then raise forbidden
  else
    create_document "blogpost" (BlogPost.model_dump post) ;;;
    ret {["ok" := VBool true]}.

Definition create_lead (lead : Lead.t) : M dict :=
  d <- read db ;;
  match d with
  | None => raise not_configured
  | Some _ =>
      create_document "lead" (Lead.model_dump lead) ;;;
      ret {["ok" := VBool true]}
  end.

Definition create_appointment (appt : Appointment.t) : M dict :=
  d <- read db ;;
  match d with
  | None => raise not_configured
  | Some _ =>
      create_document "appointment" (Appointment.model_dump appt) ;;;
      ret {["ok" := VBool true]}
  end.

Definition admin_leads (user : dict) : M (list dict) :=
  if negb (bool_decide (get user "role" = VStr "admin")) then raise forbidden
  else get_documents "lead".

Definition admin_appointments (user : dict) : M (list dict) :=
  if negb (bool_decide (get user "role" = VStr "admin")) then raise forbidden
  else get_documents "appointment".

(** *** Routes with their dependencies

    [user=Depends(get_current_user)], itself depending on
    [oauth2_scheme]: the identity is resolved from the request's
    [Authorization] header before the handler body runs. *)
Definition current_user (header : option authorization) : M dict :=
  token <- oauth2_scheme header ;;
  get_current_user token.

Definition post_packages (header : option authorization) (pkg : Package.t) : M dict :=
  user <- current_user header ;; create_package pkg user.

Definition post_blog (header : option authorization) (post : BlogPost.t) : M dict :=
  user <- current_user header ;; create_post post user.

Definition get_admin_leads (header : option authorization) : M (list dict) :=
  user <- current_user header ;; admin_leads user.

Definition get_admin_appointments (header : option authorization) : M (list dict) :=
  user <- current_user header ;; admin_appointments user.

End App.

(** *** Vocabulary for the statements below *)

(** The identity the middleware attaches for the stored user [u] found
    under [email]. *)
Definition identity_of (u : dict) (email : value) : dict :=
  <["email" := email]> (<["name" := get u "name"]>
  (<["role" := get_or u "role" (VStr "user")]> ∅)).

(** The user lookup of the middleware: [db.user.find_one(..) if db else
    None]. *)
Definition lookup_user (w : World) (email : value) : option dict :=
  match db w with
  | Some s => find_one s "user" {["email" := email]}
  | None => None
  end.

(** The claims a token issued for subject [e] with expiry [exp]
    carries. *)
Definition issued_claims (e : string) (exp : Z) : dict :=
  <["exp" := VInt exp]> {["sub" := VStr e]}.

(** The conditions under which a protected request carries no usable
    credentials: no bearer token, a token that is structurally broken or
    whose signature does not verify, a token past its expiry, a token
    without a subject, a subject with no user record. *)
Inductive rejected (env : Env) (w : World) : option authorization -> Prop :=
| rejected_absent :
    rejected env w None
| rejected_scheme a :
    lower (scheme a) <> "bearer" ->
    rejected env w (Some a)
| rejected_broken a raw :
    param a = Jwt.Opaque raw ->
    rejected env w (Some a)
| rejected_signature a j :
    param a = Jwt.Compact j ->
    Jwt.signature j <> hmac env (JWT_SECRET env) (Jwt.alg j) (Jwt.payload j) ->
    rejected env w (Some a)
| rejected_expired a j e :
    param a = Jwt.Compact j ->
    Jwt.payload j !! "exp" = Some (VInt e) ->
    e < utcnow w ->
    rejected env w (Some a)
| rejected_no_subject a j :
    param a = Jwt.Compact j ->
    Jwt.payload j !! "sub" = None ->
    rejected env w (Some a)
| rejected_no_user a j :
    param a = Jwt.Compact j ->
    lookup_user w (get (Jwt.payload j) "sub") = None ->
    rejected env w (Some a).

(** An OTP record answers a verification request when it carries the
    request's target, code and purpose. *)
Definition otp_record_matches (body : OTPVerify) (d : dict) : Prop :=
  d !! "target" = Some (VStr (verify_target body)) /\
  d !! "code" = Some (VStr (verify_code body)) /\
  d !! "purpose" = Some (VStr (verify_purpose body)).

(** The status the framework answers for an exception that leaves a
    handler: the one of an [HTTPException], 500 for any other. *)
Definition status_of (e : exn) : Z :=
  match e with
  | HTTPException status_code _ => status_code
  | _ => 500
  end.

(** ** A concrete instance

    Stand-ins for the primitives and a small populated store, to run the
    handlers on concrete requests. *)
Module Demo.

(** Whether a password has a NUL byte, which the bcrypt handler
    refuses. *)
Fixpoint has_nul (s : string) : bool :=
  match s with
  | EmptyString => false
  | String c r => Ascii.eqb c Ascii.zero || has_nul r
  end.

Definition env : Env := {|
  JWT_SECRET := "devsecret";
  hmac := fun key algorithm claims =>
            key ++ ":" ++ algorithm ++ ":" ++
            match claims !! "sub" with Some (VStr s) => s | _ => EmptyString end;
  bcrypt_digest := fun salt password =>
                     if has_nul password then inl NullPasswordError
                     else inr ("$2b$" ++ password ++ "$" ++ salt);
  bcrypt_check := fun password h =>
                    if has_nul password then inl NullPasswordError
                    else inr (String.prefix ("$2b$" ++ password ++ "$") h);
  package_validate := fun _ => inl ValidationError;
  blogpost_validate := fun _ => inl ValidationError
|}.

(** A registered user, as [register] stores it. *)
Definition alice : dict :=
  User.model_dump (User.make "A" "a@x.com" "$2b$pw$salt").

(** A user record written without a [role] field. *)
Definition bob : dict :=
  <["name" := VStr "B"]> (<["email" := VStr "b@x.com"]>
  (<["password_hash" := VStr "$2b$pw$salt"]> ∅)).

(** A user record written without a [password_hash] field. *)
Definition carol : dict :=
  <["name" := VStr "C"]> (<["email" := VStr "c@x.com"]> (<["role" := VStr "user"]> ∅)).

(** An OTP record that expired at time 600. *)
Definition stale_otp : dict :=
  OTPRequest.model_dump
    {| OTPRequest.channel := "email"; OTPRequest.target := "a@x.com";
       OTPRequest.code := "123456"; OTPRequest.purpose := "login";
       OTPRequest.expires_at := 600; OTPRequest.verified := false |}.

Definition store : gmap string (list dict) :=
  <["user" := [alice; bob; carol]]> (<["otprequest" := [stale_otp]]> ∅).

Definition world : World := {| db := Some store; utcnow := 1000; urandom := "salt" |}.

Definition empty_world : World := {| db := Some ∅; utcnow := 1000; urandom := "salt" |}.

Definition unconfigured : World := {| db := None; utcnow := 1000; urandom := "salt" |}.

Definition later (w : World) (seconds : Z) : World :=
  {| db := db w; utcnow := utcnow w + seconds; urandom := urandom w |}.

(** The token the issuer makes for [e] at time [t]. *)
Definition token_for (e : string) (t : Z) : Jwt.token :=
  Jwt.Compact {| Jwt.alg := "HS256";
                 Jwt.payload := issued_claims e (t + 86400);
                 Jwt.signature :=
                   hmac env "devsecret" "HS256" (issued_claims e (t + 86400)) |}.

Definition bearer (t : Jwt.token) : option authorization :=
  Some {| scheme := "Bearer"; param := t |}.

Definition package : Package.t :=
  {| Package.slug := "basic"; Package.title := "Basic"; Package.description := EmptyString;
     Package.features := []; Package.price_inr := 999; Package.is_popular := false |}.

Definition post : BlogPost.t :=
  {| BlogPost.title := "Hello"; BlogPost.slug := "hello"; BlogPost.excerpt := None;
     BlogPost.content := EmptyString; BlogPost.author := "Shreyash Suryawanshi";
     BlogPost.tags := []; BlogPost.published := true; BlogPost.published_at := None |}.

End Demo.

(** ** The routes behind the middleware that need no role *)

Module Upload.
Record t : Type := mk {
  user_email : option string;
  filename : string;
  url : string;
  purpose : option string
}.
Definition model_dump (u : t) : dict :=
  <["user_email" := opt_str (user_email u)]> (<["filename" := VStr (filename u)]>
  (<["url" := VStr (url u)]> (<["purpose" := opt_str (purpose u)]> ∅))).
End Upload.

Record PaymentInit : Type := mkPaymentInit {
  package_slug : string
}.

(** [str(x)] of an optional string, as an f-string renders it. *)
Definition str_opt (o : option string) : string :=
  match o with
  | Some s => s
  | None => "None"
  end.

Section Members.

Variable env : Env.

(** What pydantic's [EmailStr] makes of a string: the normalised
    address, or nothing when it rejects the string. *)
Variable validate_email : string -> option string.

(** The text Python prints for the POSIX timestamp of a clock reading. *)
Variable timestamp_text : Z -> string.

(** [Upload(user_email=.., filename=.., url=..)]: [user_email] is an
    optional [EmailStr], [filename] a required string. *)
Definition Upload_validate (user_email : value) (filename : option string) (url : string)
  : M Upload.t :=
  match filename with
  | None => raise ValidationError
  | Some f =>
      match user_email with
      | VNone =>
          ret {| Upload.user_email := None; Upload.filename := f;
                 Upload.url := url; Upload.purpose := None |}
      | VStr s =>
          match validate_email s with
          | Some s' =>
              ret {| Upload.user_email := Some s'; Upload.filename := f;
                     Upload.url := url; Upload.purpose := None |}
          | None => raise ValidationError
          end
      | _ => raise ValidationError
      end
  end.

(** The handler receives the [filename] of the uploaded file. *)
Definition upload (filename : option string) (user : dict) : M dict :=
  let content := filename in
  record <- Upload_validate (get user "email") filename ("/uploads/" ++ str_opt content) ;;
  create_document "upload" (Upload.model_dump record) ;;;
  ret {["url" := VStr (Upload.url record)]}.

Definition payment_init (body : PaymentInit) (user : dict) : M dict :=
  now <- read utcnow ;;
  ret (<["order_id" := VStr ("ORDER_" ++ timestamp_text now)]> (<["amount" := VInt 0]> ∅)).

Definition post_upload (header : option authorization) (filename : option string) : M dict :=
  user <- current_user env header ;; upload filename user.

Definition post_payments_init (header : option authorization) (body : PaymentInit) : M dict :=
  user <- current_user env header ;; payment_init body user.

End Members.

(** *** More vocabulary *)

(** The first and the last second of a [datetime]: 0001-01-01 00:00:00
    and 9999-12-31 23:59:59, in seconds since the epoch. *)
Definition datetime_min : Z := -62135596800.
Definition datetime_max : Z := 253402300799.

(** A clock reading or expiry that is a [datetime]. *)
Definition is_datetime (t : Z) : Prop := datetime_min <= t <= datetime_max.

(** The lifetime [create_token] gives a token for a requested delta. *)
Definition lifetime (expires_delta : option Z) : Z :=
  match expires_delta with
  | Some d => if Z.eqb d 0 then 86400 else d
  | None => 86400
  end.

(** The token issued for subject [e] with expiry [exp]. *)
Definition issued_token (env : Env) (e : string) (exp : Z) : Jwt.token :=
  Jwt.Compact {| Jwt.alg := JWT_ALGO;
                 Jwt.payload := issued_claims e exp;
                 Jwt.signature := hmac env (JWT_SECRET env) JWT_ALGO (issued_claims e exp) |}.

(** Every stored OTP record carries the development code. *)
Definition dev_codes_only (s : gmap string (list dict)) : Prop :=
  Forall (fun d : dict => d !! "code" = Some (VStr "123456")) (collection s "otprequest").

(** ** A second concrete instance

    An environment whose document validation accepts the documents the
    create routes write, and a store with an administrator. *)
Module Scenario.

Definition package_of (d : dict) : exn + Package.t :=
  match d !! "slug", d !! "title", d !! "description",
        d !! "features", d !! "price_inr", d !! "is_popular" with
  | Some (VStr slug), Some (VStr title), Some (VStr description),
    Some (VStrs features), Some (VInt price_inr), Some (VBool is_popular) =>
      inr {| Package.slug := slug; Package.title := title;
             Package.description := description; Package.features := features;
             Package.price_inr := price_inr; Package.is_popular := is_popular |}
  | _, _, _, _, _, _ => inl ValidationError
  end.

Definition opt_text (v : value) : option (option string) :=
  match v with
  | VNone => Some None
  | VStr s => Some (Some s)
  | _ => None
  end.

Definition opt_instant (v : value) : option (option Z) :=
  match v with
  | VNone => Some None
  | VTime t => Some (Some t)
  | _ => None
  end.

Definition blogpost_of (d : dict) : exn + BlogPost.t :=
  match d !! "title", d !! "slug", opt_text (get d "excerpt"), d !! "content",
        d !! "author", d !! "tags", d !! "published", opt_instant (get d "published_at") with
  | Some (VStr title), Some (VStr slug), Some excerpt, Some (VStr content),
    Some (VStr author), Some (VStrs tags), Some (VBool published), Some published_at =>
      inr {| BlogPost.title := title; BlogPost.slug := slug; BlogPost.excerpt := excerpt;
             BlogPost.content := content; BlogPost.author := author; BlogPost.tags := tags;
             BlogPost.published := published; BlogPost.published_at := published_at |}
  | _, _, _, _, _, _, _, _ => inl ValidationError
  end.

Definition env : Env := {|
  JWT_SECRET := JWT_SECRET Demo.env;
  hmac := hmac Demo.env;
  bcrypt_digest := bcrypt_digest Demo.env;
  bcrypt_check := bcrypt_check Demo.env;
  package_validate := package_of;
  blogpost_validate := blogpost_of
|}.

Definition root_user : dict :=
  <["name" := VStr "R"]> (<["email" := VStr "root@x.com"]>
  (<["password_hash" := VNone]> (<["role" := VStr "admin"]> ∅))).

Definition store : gmap string (list dict) :=
  <["user" := [Demo.alice; root_user]]> ∅.

Definition world : World := {| db := Some store; utcnow := 1000; urandom := "salt" |}.

(** A token that also carries a [role] claim, signed like any other. *)
Definition boasting_token : Jwt.token :=
  Jwt.Compact {| Jwt.alg := "HS256";
                 Jwt.payload := <["role" := VStr "admin"]> (issued_claims "a@x.com" 90000);
                 Jwt.signature :=
                   hmac env "devsecret" "HS256"
                     (<["role" := VStr "admin"]> (issued_claims "a@x.com" 90000)) |}.

Definition appointment : Appointment.t :=
  {| Appointment.user_email := None; Appointment.name := "L";
     Appointment.phone := None; Appointment.package_id := Some "basic";
     Appointment.date := "2025-01-31"; Appointment.time := "10:30";
     Appointment.notes := None; Appointment.status := "pending" |}.

Definition lead : Lead.t :=
  {| Lead.name := "L"; Lead.email := "l@x.com"; Lead.phone := None;
     Lead.source := Some "website"; Lead.message := None; Lead.status := "new" |}.

Definition accept_at (s : string) : option string :=
  match String.index 0 "@" s with
  | Some _ => Some s
  | None => None
  end.

End Scenario.

(** * Properties *)

(** ** The monad and the store *)

Lemma bind_inr {A B} (m : M A) (f : A -> M B) w a w' :
  m w = (inr a, w') -> bind m f w = f a w'.
Proof. intros H. unfold bind. now rewrite H. Qed.

Lemma bind_inl {A B} (m : M A) (f : A -> M B) w e w' :
  m w = (inl e, w') -> bind m f w = (inl e, w').
Proof. intros H. unfold bind. now rewrite H. Qed.

Lemma find_one_Some s name flt d :
  find_one s name flt = Some d -> d ∈ collection s name /\ flt ⊆ d.
Proof.
  unfold find_one. intros H. apply List.find_some in H as [Hin Hm].
  split.
  - now apply list_elem_of_In.
  - unfold matches in Hm. now apply bool_decide_eq_true in Hm.
Qed.

Lemma find_one_None s name flt :
  find_one s name flt = None <-> forall d, d ∈ collection s name -> ¬ flt ⊆ d.
Proof.
  unfold find_one. split.
  - intros H d Hin Hsub. apply list_elem_of_In in Hin.
    pose proof (List.find_none _ _ H d Hin) as Hm.
    unfold matches in Hm. apply bool_decide_eq_false in Hm. contradiction.
  - intros H. destruct (List.find _ _) as [d|] eqn:E; [|reflexivity].
    apply List.find_some in E as [Hin Hm].
    unfold matches in Hm. apply bool_decide_eq_true in Hm.
    apply list_elem_of_In in Hin. now destruct (H d Hin).
Qed.

(** A document found under a filter on some field is not the empty
    dict, so it is truthy. *)
Lemma find_one_truthy s name flt k v d :
  flt !! k = Some v -> find_one s name flt = Some d -> truthy_dict (Some d) = true.
Proof.
  intros Hk H. apply find_one_Some in H as [_ Hsub].
  simpl. apply negb_true_iff, bool_decide_eq_false. intros ->.
  pose proof (lookup_weaken _ _ _ _ Hk Hsub) as Hd.
  now rewrite lookup_empty in Hd.
Qed.

Lemma find_app {A} (f : A -> bool) (l1 l2 : list A) :
  List.find f (l1 ++ l2)%list =
  match List.find f l1 with Some x => Some x | None => List.find f l2 end.
Proof.
  induction l1 as [|x l1 IH]; simpl; [reflexivity|].
  now destruct (f x).
Qed.

Lemma collection_insert_one s name d :
  collection (insert_one s name d) name = (collection s name ++ [d])%list.
Proof. unfold insert_one, collection at 1. now rewrite lookup_insert_eq. Qed.

(** ** The role gate *)

Section RoleGate.

Variable env : Env.

Lemma create_package_forbidden pkg user w :
  get user "role" <> VStr "admin" -> create_package pkg user w = (inl forbidden, w).
Proof.
  intros H. unfold create_package. now rewrite (bool_decide_eq_false_2 _ H).
Qed.

Lemma create_post_forbidden post user w :
  get user "role" <> VStr "admin" -> create_post post user w = (inl forbidden, w).
Proof.
  intros H. unfold create_post. now rewrite (bool_decide_eq_false_2 _ H).
Qed.

Lemma admin_leads_forbidden user w :
  get user "role" <> VStr "admin" -> admin_leads user w = (inl forbidden, w).
Proof.
  intros H. unfold admin_leads. now rewrite (bool_decide_eq_false_2 _ H).
Qed.

Lemma admin_appointments_forbidden user w :
  get user "role" <> VStr "admin" -> admin_appointments user w = (inl forbidden, w).
Proof.
  intros H. unfold admin_appointments. now rewrite (bool_decide_eq_false_2 _ H).
Qed.

Lemma create_document_not_forbidden name d w :
  fst (create_document name d w) <> inl forbidden.
Proof. unfold create_document. destruct (db w); discriminate. Qed.

Lemma get_documents_not_forbidden name w :
  fst (get_documents name w) <> inl forbidden.
Proof. unfold get_documents. destruct (db w); discriminate. Qed.

End RoleGate.

(** ** Token verification *)

Lemma decode_at_inr mac now t key algorithms p :
  Jwt.decode_at mac now t key algorithms = inr p ->
  exists j, t = Jwt.Compact j /\ Jwt.alg j ∈ algorithms /\
            Jwt.signature j = mac key (Jwt.alg j) (Jwt.payload j) /\
            Jwt.validate_exp (Jwt.payload j) now = inr tt /\
            p = Jwt.payload j.
Proof.
  unfold Jwt.decode_at. destruct t as [raw|j]; [discriminate|].
  destruct (bool_decide (Jwt.alg j ∈ algorithms)) eqn:Ha; simpl; [|discriminate].
  destruct (String.eqb (Jwt.signature j) _) eqn:Hs; simpl; [|discriminate].
  destruct (Jwt.validate_nbf _ _); [discriminate|].
  destruct (Jwt.validate_exp _ _) as [|[]] eqn:He; [discriminate|].
  destruct (Jwt.validate_aud _); [discriminate|].
  intros [= <-]. exists j.
  split; [reflexivity|]. split; [now apply bool_decide_eq_true in Ha|].
  split; [now apply String.eqb_eq in Hs|]. split; [exact He|reflexivity].
Qed.

Lemma validate_exp_expired p e now :
  p !! "exp" = Some (VInt e) -> e <= now ->
  Jwt.validate_exp p now = inl ExpiredSignatureError.
Proof.
  intros Hp Hle. unfold Jwt.validate_exp. rewrite Hp.
  destruct (Z.leb_spec e now); [reflexivity|lia].
Qed.

Section Middleware.

Variable env : Env.


Lemma get_current_user_decode_error t w e :
  Jwt.decode_at (hmac env) (utcnow w) t (JWT_SECRET env) [JWT_ALGO] = inl e ->
  get_current_user env t w = get_current_user_except e w.
Proof.
  intros H. unfold get_current_user, try_except, bind, Jwt.decode. now rewrite H.
Qed.

Lemma get_current_user_except_401 e w :
  exists detail, get_current_user_except e w = (inl (HTTPException 401 detail), w).
Proof. destruct e; simpl; eexists; reflexivity. Qed.

Lemma get_current_user_no_subject t w p :
  Jwt.decode_at (hmac env) (utcnow w) t (JWT_SECRET env) [JWT_ALGO] = inr p ->
  truthy (get p "sub") = false ->
  get_current_user env t w = (inl (HTTPException 401 "Invalid token"), w).
Proof.
  intros H Hs. unfold get_current_user, try_except, bind, Jwt.decode.
  rewrite H, Hs. reflexivity.
Qed.


Lemma get_current_user_no_user t w p :
  Jwt.decode_at (hmac env) (utcnow w) t (JWT_SECRET env) [JWT_ALGO] = inr p ->
  truthy (get p "sub") = true ->
  lookup_user w (get p "sub") = None ->
  get_current_user env t w = (inl (HTTPException 401 "Invalid token"), w).
Proof.
  intros H Hs Hu. unfold get_current_user, try_except, bind, Jwt.decode, read.
  rewrite H, Hs. simpl. unfold lookup_user in Hu.
  destruct (db w) as [s|]; [rewrite Hu|]; reflexivity.
Qed.

Lemma get_current_user_found t w p u :
  Jwt.decode_at (hmac env) (utcnow w) t (JWT_SECRET env) [JWT_ALGO] = inr p ->
  truthy (get p "sub") = true ->
  lookup_user w (get p "sub") = Some u ->
  get_current_user env t w = (inr (identity_of u (get p "sub")), w).
Proof.
  intros H Hs Hu. unfold get_current_user, try_except, bind, Jwt.decode, read.
  rewrite H, Hs. simpl. unfold lookup_user in Hu.
  destruct (db w) as [s|]; [|discriminate]. rewrite Hu.
  assert (Ht : truthy_dict (Some u) = true).
  { eapply find_one_truthy; [|exact Hu]. apply lookup_singleton_eq. }
  rewrite Ht. simpl.
  apply find_one_Some in Hu as [_ Hsub].
  assert (He : u !! "email" = Some (get p "sub")).
  { eapply lookup_weaken; [|exact Hsub]. apply lookup_singleton_eq. }
  unfold subscript. rewrite He. reflexivity.
Qed.

(** Every outcome of the middleware is an identity or a 401, and the
    world is left as it was. *)
Lemma get_current_user_cases t w :
  (exists p u,
      Jwt.decode_at (hmac env) (utcnow w) t (JWT_SECRET env) [JWT_ALGO] = inr p /\
      truthy (get p "sub") = true /\
      lookup_user w (get p "sub") = Some u /\
      get_current_user env t w = (inr (identity_of u (get p "sub")), w)) \/
  (exists detail, get_current_user env t w = (inl (HTTPException 401 detail), w)).
Proof.
  destruct (Jwt.decode_at (hmac env) (utcnow w) t (JWT_SECRET env) [JWT_ALGO])
    as [e|p] eqn:Hd.
  - right. rewrite (get_current_user_decode_error _ _ _ Hd).
    apply get_current_user_except_401.
  - destruct (truthy (get p "sub")) eqn:Hs.
    + destruct (lookup_user w (get p "sub")) as [u|] eqn:Hu.
      * left. exists p, u. repeat split; try assumption.
        now apply get_current_user_found.
      * right. eexists. now apply get_current_user_no_user with (p := p).
    + right. eexists. now apply get_current_user_no_subject with (p := p).
Qed.

Lemma oauth2_scheme_cases header w :
  (exists a, header = Some a /\ lower (scheme a) = "bearer" /\
             oauth2_scheme header w = (inr (param a), w)) \/
  ((header = None \/ exists a, header = Some a /\ lower (scheme a) <> "bearer") /\
   oauth2_scheme header w = (inl (HTTPException 401 "Not authenticated"), w)).
Proof.
  destruct header as [a|]; simpl.
  - destruct (String.eqb (lower (scheme a)) "bearer") eqn:E.
    + left. exists a. apply String.eqb_eq in E. now repeat split.
    + right. apply String.eqb_neq in E. split; [|reflexivity]. right. now exists a.
  - right. split; [now left | reflexivity].
Qed.

Lemma current_user_bearer a w :
  lower (scheme a) = "bearer" ->
  current_user env (Some a) w = get_current_user env (param a) w.
Proof.
  intros H. unfold current_user, bind. simpl.
  apply String.eqb_eq in H. now rewrite H.
Qed.

Lemma current_user_cases header w :
  (exists a p u,
      header = Some a /\ lower (scheme a) = "bearer" /\
      Jwt.decode_at (hmac env) (utcnow w) (param a) (JWT_SECRET env) [JWT_ALGO] = inr p /\
      truthy (get p "sub") = true /\
      lookup_user w (get p "sub") = Some u /\
      current_user env header w = (inr (identity_of u (get p "sub")), w)) \/
  (exists detail, current_user env header w = (inl (HTTPException 401 detail), w)).
Proof.
  destruct (oauth2_scheme_cases header w) as [(a & -> & Hb & _)|[_ Ho]].
  - rewrite (current_user_bearer _ _ Hb).
    destruct (get_current_user_cases (param a) w) as [(p & u & Hd & Hs & Hu & Hg)|Hg].
    + left. exists a, p, u. now repeat split.
    + now right.
  - right. eexists. unfold current_user. now rewrite (bind_inl _ _ _ _ _ Ho).
Qed.

Lemma current_user_world header w : snd (current_user env header w) = w.
Proof.
  destruct (current_user_cases header w) as [(a & p & u & _ & _ & _ & _ & _ & H)|[d H]];
    now rewrite H.
Qed.

End Middleware.

(** ** Protected routes *)

(** C1.  On each of the four admin routes (POST /packages, POST /blog,
    GET /admin/leads, GET /admin/appointments), a request whose
    authenticated identity has a resolved role other than the exact
    string "admin" is answered 403 Forbidden and changes nothing; an
    identity whose role is "admin" is never answered Forbidden. *)
Theorem admin_routes_require_admin env header w user pkg post :
  fst (current_user env header w) = inr user ->
  (get user "role" <> VStr "admin" ->
   post_packages env header pkg w = (inl forbidden, w) /\
   post_blog env header post w = (inl forbidden, w) /\
   get_admin_leads env header w = (inl forbidden, w) /\
   get_admin_appointments env header w = (inl forbidden, w)) /\
  (get user "role" = VStr "admin" ->
   fst (post_packages env header pkg w) <> inl forbidden /\
   fst (post_blog env header post w) <> inl forbidden /\
   fst (get_admin_leads env header w) <> inl forbidden /\
   fst (get_admin_appointments env header w) <> inl forbidden).
Proof.
  intros Hu.
  assert (Hc : current_user env header w = (inr user, w)).
  { pose proof (current_user_world env header w) as Hw.
    destruct (current_user env header w) as [r w']. simpl in *. congruence. }
  unfold post_packages, post_blog, get_admin_leads, get_admin_appointments.
  rewrite !(bind_inr _ _ _ _ _ Hc). split.
  - intros Hr. repeat split.
    + now apply create_package_forbidden.
    + now apply create_post_forbidden.
    + now apply admin_leads_forbidden.
    + now apply admin_appointments_forbidden.
  - intros Hr.
    unfold create_package, create_post, admin_leads, admin_appointments.
    rewrite !(bool_decide_eq_true_2 _ Hr). simpl. repeat split.
    + unfold bind. pose proof (create_document_not_forbidden "package" (Package.model_dump pkg) w) as H.
      destruct (create_document _ _ w) as [[e|[]] w']; simpl in *; [congruence|discriminate].
    + unfold bind. pose proof (create_document_not_forbidden "blogpost" (BlogPost.model_dump post) w) as H.
      destruct (create_document _ _ w) as [[e|[]] w']; simpl in *; [congruence|discriminate].
    + apply get_documents_not_forbidden.
    + apply get_documents_not_forbidden.
Qed.

Lemma admin_routes_require_admin_witness :
  fst (current_user Demo.env (Demo.bearer (Demo.token_for "a@x.com" 0)) Demo.world)
    = inr (identity_of Demo.alice (VStr "a@x.com")) /\
  get (identity_of Demo.alice (VStr "a@x.com")) "role" = VStr "user" /\
  post_packages Demo.env (Demo.bearer (Demo.token_for "a@x.com" 0)) Demo.package Demo.world
    = (inl forbidden, Demo.world) /\
  get_admin_leads Demo.env (Demo.bearer (Demo.token_for "a@x.com" 0)) Demo.world
    = (inl forbidden, Demo.world).
Proof.
  assert (Hu : fst (current_user Demo.env (Demo.bearer (Demo.token_for "a@x.com" 0)) Demo.world)
               = inr (identity_of Demo.alice (VStr "a@x.com"))) by (vm_compute; reflexivity).
  assert (Hr : get (identity_of Demo.alice (VStr "a@x.com")) "role" = VStr "user")
    by (vm_compute; reflexivity).
  split; [exact Hu|]. split; [exact Hr|].
  destruct (admin_routes_require_admin Demo.env _ Demo.world _ Demo.package Demo.post Hu)
    as [Hno _].
  destruct Hno as (H1 & _ & H3 & _).
  - rewrite Hr. discriminate.
  - split; [exact H1 | exact H3].
Defined.

(** C2.  A protected request with no bearer token, with a structurally
    broken token, with a token whose signature does not verify, with an
    expired token, with a token that carries no subject, or whose
    subject has no user record, is answered 401 Unauthorized by the
    middleware: it never resolves to an identity. *)
Theorem rejected_is_unauthorized env w header :
  rejected env w header ->
  exists detail, current_user env header w = (inl (HTTPException 401 detail), w).
Proof.
  intros Hrej.
  destruct (current_user_cases env header w)
    as [(a & p & u & Hh & Hb & Hd & Hs & Hu & _)|H]; [exfalso|exact H].
  apply decode_at_inr in Hd as (j & Hj & _ & Hsig & Hexp & ->).
  destruct Hrej as [|a' Hne|a' raw Hp|a' j' Hp Hne|a' j' e Hp He Hlt|a' j' Hp Hsub|a' j' Hp Hnu];
    try discriminate; injection Hh as ->.
  - contradiction.
  - congruence.
  - rewrite Hj in Hp. injection Hp as <-. contradiction.
  - rewrite Hj in Hp. injection Hp as <-.
    rewrite (validate_exp_expired _ _ _ He) in Hexp; [discriminate|lia].
  - rewrite Hj in Hp. injection Hp as <-.
    unfold get in Hs. rewrite Hsub in Hs. discriminate.
  - rewrite Hj in Hp. injection Hp as <-. congruence.
Qed.

Lemma rejected_is_unauthorized_witness :
  exists detail,
    current_user Demo.env (Demo.bearer (Demo.token_for "a@x.com" 0)) (Demo.later Demo.world 90000)
    = (inl (HTTPException 401 detail), Demo.later Demo.world 90000).
Proof.
  apply rejected_is_unauthorized.
  eapply rejected_expired with (e := 86400).
  - reflexivity.
  - vm_compute. reflexivity.
  - vm_compute. reflexivity.
Defined.

(** C10.  When the stored user of a token's subject has no [role]
    field, the middleware resolves the identity with role "user", and
    each admin route answers such a request 403 Forbidden. *)
Theorem missing_role_fails_closed env a w p u pkg post :
  lower (scheme a) = "bearer" ->
  Jwt.decode_at (hmac env) (utcnow w) (param a) (JWT_SECRET env) [JWT_ALGO] = inr p ->
  truthy (get p "sub") = true ->
  lookup_user w (get p "sub") = Some u ->
  u !! "role" = None ->
  exists ident,
    current_user env (Some a) w = (inr ident, w) /\
    ident !! "role" = Some (VStr "user") /\
    post_packages env (Some a) pkg w = (inl forbidden, w) /\
    post_blog env (Some a) post w = (inl forbidden, w) /\
    get_admin_leads env (Some a) w = (inl forbidden, w) /\
    get_admin_appointments env (Some a) w = (inl forbidden, w).
Proof.
  intros Hb Hd Hs Hu Hrole.
  exists (identity_of u (get p "sub")).
  assert (Hc : current_user env (Some a) w = (inr (identity_of u (get p "sub")), w)).
  { rewrite (current_user_bearer _ _ _ Hb). now apply get_current_user_found. }
  assert (Hr : identity_of u (get p "sub") !! "role" = Some (VStr "user")).
  { unfold identity_of, get_or. rewrite Hrole. simpl.
    rewrite lookup_insert_ne by discriminate.
    rewrite lookup_insert_ne by discriminate.
    apply lookup_insert_eq. }
  assert (Hg : get (identity_of u (get p "sub")) "role" <> VStr "admin").
  { unfold get at 1. rewrite Hr. discriminate. }
  split; [exact Hc|]. split; [exact Hr|].
  unfold post_packages, post_blog, get_admin_leads, get_admin_appointments.
  rewrite !(bind_inr _ _ _ _ _ Hc). repeat split.
  - now apply create_package_forbidden.
  - now apply create_post_forbidden.
  - now apply admin_leads_forbidden.
  - now apply admin_appointments_forbidden.
Qed.

Lemma missing_role_fails_closed_witness :
  Demo.bob !! "role" = None /\
  exists ident,
    current_user Demo.env (Demo.bearer (Demo.token_for "b@x.com" 0)) Demo.world
      = (inr ident, Demo.world) /\
    ident !! "role" = Some (VStr "user") /\
    post_packages Demo.env (Demo.bearer (Demo.token_for "b@x.com" 0)) Demo.package Demo.world
      = (inl forbidden, Demo.world) /\
    post_blog Demo.env (Demo.bearer (Demo.token_for "b@x.com" 0)) Demo.post Demo.world
      = (inl forbidden, Demo.world) /\
    get_admin_leads Demo.env (Demo.bearer (Demo.token_for "b@x.com" 0)) Demo.world
      = (inl forbidden, Demo.world) /\
    get_admin_appointments Demo.env (Demo.bearer (Demo.token_for "b@x.com" 0)) Demo.world
      = (inl forbidden, Demo.world).
Proof.
  split; [vm_compute; reflexivity|].
  apply (missing_role_fails_closed Demo.env
           {| scheme := "Bearer"; param := Demo.token_for "b@x.com" 0 |}
           Demo.world (issued_claims "b@x.com" 86400) Demo.bob).
  - vm_compute; reflexivity.
  - vm_compute; reflexivity.
  - vm_compute; reflexivity.
  - vm_compute; reflexivity.
  - vm_compute; reflexivity.
Defined.

(** ** Issuing and verifying tokens *)

Section Tokens.

Variable env : Env.

Lemma issued_claims_sub e x : issued_claims e x !! "sub" = Some (VStr e).
Proof.
  unfold issued_claims. rewrite lookup_insert_ne by discriminate.
  apply lookup_singleton_eq.
Qed.

Lemma issued_claims_exp e x : issued_claims e x !! "exp" = Some (VInt x).
Proof. unfold issued_claims. apply lookup_insert_eq. Qed.

Lemma issued_claims_other e x k :
  k <> "exp" -> k <> "sub" -> issued_claims e x !! k = None.
Proof.
  intros H1 H2. unfold issued_claims.
  rewrite lookup_insert_ne by congruence.
  now rewrite lookup_singleton_ne by congruence.
Qed.

Lemma alter_absent (f : value -> value) k (m : dict) : m !! k = None -> alter f k m = m.
Proof.
  intros H. apply map_eq. intros i. rewrite lookup_alter.
  case_decide; [subst; now rewrite H|reflexivity].
Qed.

Lemma numeric_dates_issue e x :
  Jwt.numeric_dates (<["exp" := VTime x]> {["sub" := VStr e]}) = issued_claims e x.
Proof.
  unfold Jwt.numeric_dates.
  rewrite (alter_absent _ "nbf").
  2:{ rewrite lookup_insert_ne by discriminate. now rewrite lookup_singleton_ne. }
  rewrite (alter_absent _ "iat").
  2:{ rewrite lookup_insert_ne by discriminate. now rewrite lookup_singleton_ne. }
  apply map_eq. intros i. rewrite lookup_alter. unfold issued_claims.
  case_decide as Hi.
  - subst i. now rewrite !lookup_insert_eq.
  - now rewrite !lookup_insert_ne by congruence.
Qed.

Lemma issued_claims_serialisable e x :
  map_Forall (fun _ v => Jwt.json_serialisable v = true) (issued_claims e x).
Proof.
  unfold issued_claims. apply map_Forall_insert_2; [reflexivity|].
  now apply map_Forall_singleton.
Qed.

(** The token that the issuer makes for subject [e] in world [w]. *)
Lemma create_token_sub e w :
  create_token env {["sub" := VStr e]} None w =
  (inr (Jwt.Compact
          {| Jwt.alg := JWT_ALGO;
             Jwt.payload := issued_claims e (utcnow w + 86400);
             Jwt.signature :=
               hmac env (JWT_SECRET env) JWT_ALGO (issued_claims e (utcnow w + 86400)) |}),
   w).
Proof.
  unfold create_token, bind, read, Jwt.encode.
  change (timedelta_minutes TOKEN_EXPIRE_MINUTES) with 86400.
  rewrite numeric_dates_issue.
  now rewrite (bool_decide_eq_true_2 _ (issued_claims_serialisable e _)).
Qed.

Lemma decode_issued e x now :
  Jwt.decode_at (hmac env) now
    (Jwt.Compact {| Jwt.alg := JWT_ALGO; Jwt.payload := issued_claims e x;
                    Jwt.signature := hmac env (JWT_SECRET env) JWT_ALGO (issued_claims e x) |})
    (JWT_SECRET env) [JWT_ALGO]
  = if Z.leb x now then inl ExpiredSignatureError else inr (issued_claims e x).
Proof.
  unfold Jwt.decode_at. cbn [Jwt.alg Jwt.payload Jwt.signature].
  rewrite bool_decide_eq_true_2 by (apply list_elem_of_singleton; reflexivity).
  rewrite String.eqb_refl. cbn [negb].
  unfold Jwt.validate_nbf, Jwt.validate_exp, Jwt.validate_aud.
  rewrite (issued_claims_other e x "nbf") by discriminate.
  rewrite (issued_claims_other e x "aud") by discriminate.
  rewrite issued_claims_exp. now destruct (Z.leb x now).
Qed.

End Tokens.

(** C3.  A token issued for subject [e] and verified before its expiry
    against the same secret decodes to claims whose subject is exactly
    [e]; and when [e] is not the empty string (as every well-formed
    email is) and has a user record, the middleware resolves the token
    to an identity whose email is exactly [e]. *)
Theorem token_round_trip env e w w' :
  e <> EmptyString ->
  utcnow w' < utcnow w + 86400 ->
  exists t,
    create_token env {["sub" := VStr e]} None w = (inr t, w) /\
    (exists p, Jwt.decode (hmac env) t (JWT_SECRET env) [JWT_ALGO] w' = (inr p, w') /\
               p !! "sub" = Some (VStr e)) /\
    (forall u, lookup_user w' (VStr e) = Some u ->
               exists ident, get_current_user env t w' = (inr ident, w') /\
                             ident !! "email" = Some (VStr e)).
Proof.
  intros Hne Hlt. eexists. split; [apply create_token_sub|].
  assert (Hd : Jwt.decode_at (hmac env) (utcnow w')
                 (Jwt.Compact
                    {| Jwt.alg := JWT_ALGO;
                       Jwt.payload := issued_claims e (utcnow w + 86400);
                       Jwt.signature :=
                         hmac env (JWT_SECRET env) JWT_ALGO
                           (issued_claims e (utcnow w + 86400)) |})
                 (JWT_SECRET env) [JWT_ALGO]
               = inr (issued_claims e (utcnow w + 86400))).
  { rewrite decode_issued. destruct (Z.leb_spec (utcnow w + 86400) (utcnow w')); [lia|reflexivity]. }
  assert (Hsub : get (issued_claims e (utcnow w + 86400)) "sub" = VStr e).
  { unfold get. now rewrite issued_claims_sub. }
  split.
  - exists (issued_claims e (utcnow w + 86400)). unfold Jwt.decode. rewrite Hd.
    split; [reflexivity|apply issued_claims_sub].
  - intros u Hu. exists (identity_of u (VStr e)). split.
    + pose proof (get_current_user_found env _ w' _ u Hd) as Hf.
      rewrite Hsub in Hf. apply Hf; [|exact Hu].
      simpl. apply negb_true_iff. now apply String.eqb_neq.
    + unfold identity_of. apply lookup_insert_eq.
Qed.

Lemma token_round_trip_witness :
  exists t,
    create_token Demo.env {["sub" := VStr "a@x.com"]} None Demo.world = (inr t, Demo.world) /\
    (exists p, Jwt.decode (hmac Demo.env) t (JWT_SECRET Demo.env) [JWT_ALGO]
                 (Demo.later Demo.world 3600) = (inr p, Demo.later Demo.world 3600) /\
               p !! "sub" = Some (VStr "a@x.com")) /\
    (exists ident,
        get_current_user Demo.env t (Demo.later Demo.world 3600)
          = (inr ident, Demo.later Demo.world 3600) /\
        ident !! "email" = Some (VStr "a@x.com")).
Proof.
  destruct (token_round_trip Demo.env "a@x.com" Demo.world (Demo.later Demo.world 3600))
    as (t & Ht & Hp & Hu).
  - discriminate.
  - vm_compute. reflexivity.
  - exists t. split; [exact Ht|]. split; [exact Hp|].
    apply (Hu Demo.alice). vm_compute. reflexivity.
Defined.



(** ** Credentials *)

Section Credentials.

Variable env : Env.

Lemma verify_password_world password hashed w :
  snd (verify_password env password hashed w) = w.
Proof.
  unfold verify_password, Passlib.verify.
  destruct hashed as [| | |h| |]; try reflexivity.
  now destruct (Passlib.identify h).
Qed.

Lemma login_no_user username password w s :
  db w = Some s ->
  find_one s "user" {["email" := VStr username]} = None ->
  login env username password w
  = (inl (HTTPException 400 "Incorrect email or password"), w).
Proof.
  intros Hdb Hf. unfold login, bind, read. rewrite Hdb, Hf. reflexivity.
Qed.

Lemma login_found username password w s u :
  db w = Some s ->
  find_one s "user" {["email" := VStr username]} = Some u ->
  login env username password w
  = bind (verify_password env password (get_or u "password_hash" (VStr EmptyString)))
      (fun ok =>
         if negb ok then raise (HTTPException 400 "Incorrect email or password")
         else bind (subscript u "email")
                (fun sub => bind (create_token env {["sub" := sub]} None)
                  (fun token => ret {| access_token := token; token_type := "bearer" |})))
      w.
Proof.
  intros Hdb Hf. unfold login at 1, bind at 1, read. rewrite Hdb, Hf.
  assert (Ht : truthy_dict (Some u) = true).
  { eapply find_one_truthy; [|exact Hf]. apply lookup_singleton_eq. }
  rewrite Ht. reflexivity.
Qed.

Lemma login_wrong_password username password w s u :
  db w = Some s ->
  find_one s "user" {["email" := VStr username]} = Some u ->
  fst (verify_password env password (get_or u "password_hash" (VStr EmptyString)) w) = inr false ->
  login env username password w
  = (inl (HTTPException 400 "Incorrect email or password"), w).
Proof.
  intros Hdb Hf Hv. rewrite (login_found _ _ _ _ _ Hdb Hf).
  pose proof (verify_password_world password (get_or u "password_hash" (VStr EmptyString)) w) as Hw.
  unfold bind. destruct (verify_password _ _ _ w) as [r w']. simpl in *. subst. reflexivity.
Qed.

(** On a string that carries no identifier of the configured scheme,
    verification raises whatever the password. *)
Lemma verify_password_unknown_scheme password h w :
  Passlib.identify h = false ->
  verify_password env password (VStr h) w = (inl UnknownHashError, w).
Proof. intros H. unfold verify_password, Passlib.verify. now rewrite H. Qed.

(** A stored user without a [password_hash] field: the empty default is
    no hash of any scheme, and the exception leaves the handler. *)
Lemma login_hash_missing username password w s u :
  db w = Some s ->
  find_one s "user" {["email" := VStr username]} = Some u ->
  u !! "password_hash" = None ->
  login env username password w = (inl UnknownHashError, w).
Proof.
  intros Hdb Hf Hh. rewrite (login_found _ _ _ _ _ Hdb Hf).
  unfold get_or. rewrite Hh. reflexivity.
Qed.

Lemma register_taken name email password w s u :
  db w = Some s ->
  find_one s "user" {["email" := VStr email]} = Some u ->
  register env name email password w
  = (inl (HTTPException 400 "Email already registered"), w).
Proof.
  intros Hdb Hf. unfold register, bind, read. rewrite Hdb.
  assert (Ht : truthy_dict (Some u) = true).
  { eapply find_one_truthy; [|exact Hf]. apply lookup_singleton_eq. }
  rewrite Hf, Ht. reflexivity.
Qed.

Lemma register_fresh name email password w s h :
  db w = Some s ->
  find_one s "user" {["email" := VStr email]} = None ->
  bcrypt_digest env (urandom w) password = inr h ->
  let doc := User.model_dump (User.make name email h) in
  let w1 := with_db w (Some (insert_one s "user" doc)) in
  register env name email password w
  = (inr {| access_token :=
              Jwt.Compact
                {| Jwt.alg := JWT_ALGO;
                   Jwt.payload := issued_claims email (utcnow w + 86400);
                   Jwt.signature :=
                     hmac env (JWT_SECRET env) JWT_ALGO
                       (issued_claims email (utcnow w + 86400)) |};
            token_type := "bearer" |}, w1).
Proof.
  intros Hdb Hf Hh doc w1. unfold register, bind at 1, read. rewrite Hdb, Hf.
  cbn [truthy_dict]. unfold hash_password, Passlib.hash, bind at 1. rewrite Hh.
  unfold bind at 1. unfold create_document. rewrite Hdb.
  fold doc. fold w1. unfold bind.
  now rewrite (create_token_sub env email w1).
Qed.

(** A password the hasher refuses: the exception leaves the handler
    before anything is stored. *)
Lemma register_hash_fails name email password w s e :
  db w = Some s ->
  find_one s "user" {["email" := VStr email]} = None ->
  bcrypt_digest env (urandom w) password = inl e ->
  register env name email password w = (inl e, w).
Proof.
  intros Hdb Hf Hh. unfold register, bind at 1, read. rewrite Hdb, Hf.
  cbn [truthy_dict]. unfold hash_password, Passlib.hash, bind at 1. now rewrite Hh.
Qed.

(** An existing user against whose stored hash the verification raises:
    the exception leaves the handler. *)
Lemma login_verify_raises username password w s u e :
  db w = Some s ->
  find_one s "user" {["email" := VStr username]} = Some u ->
  verify_password env password (get_or u "password_hash" (VStr EmptyString)) w = (inl e, w) ->
  login env username password w = (inl e, w).
Proof.
  intros Hdb Hf Hv. rewrite (login_found _ _ _ _ _ Hdb Hf).
  unfold bind at 1. now rewrite Hv.
Qed.

Lemma model_dump_email u : User.model_dump u !! "email" = Some (VStr (User.email u)).
Proof.
  unfold User.model_dump. rewrite lookup_insert_ne by discriminate.
  apply lookup_insert_eq.
Qed.

Lemma find_one_inserted s email doc :
  doc !! "email" = Some (VStr email) ->
  exists u, find_one (insert_one s "user" doc) "user" {["email" := VStr email]} = Some u.
Proof.
  intros Hd. unfold find_one. rewrite collection_insert_one, find_app.
  destruct (List.find _ (collection s "user")) as [u|]; [now exists u|].
  exists doc. simpl. unfold matches.
  rewrite bool_decide_eq_true_2; [reflexivity|].
  now apply map_singleton_subseteq_l.
Qed.

End Credentials.

(** C5.  The two failing logins are not always indistinguishable.  For
    an email with no user record the answer is 400 "Incorrect email or
    password"; for an existing email it is the same only when the
    password verification answers false.  When the verification raises,
    as it does on the stored user without a password hash, or on a
    password the bcrypt handler refuses, nothing in [login] catches the
    exception and the request ends as an unhandled error (status 500),
    which tells the existing account from the unknown one. *)
Theorem login_failures_distinguishable env :
  find_one Demo.store "user" {["email" := VStr "nobody@x.com"]} = None /\
  find_one Demo.store "user" {["email" := VStr "c@x.com"]} = Some Demo.carol /\
  find_one Demo.store "user" {["email" := VStr "a@x.com"]} = Some Demo.alice /\
  login env "nobody@x.com" "pw" Demo.world
    = (inl (HTTPException 400 "Incorrect email or password"), Demo.world) /\
  login env "c@x.com" "pw" Demo.world = (inl UnknownHashError, Demo.world) /\
  login Demo.env "nobody@x.com" (String Ascii.zero "pw") Demo.world
    = (inl (HTTPException 400 "Incorrect email or password"), Demo.world) /\
  login Demo.env "a@x.com" (String Ascii.zero "pw") Demo.world
    = (inl NullPasswordError, Demo.world) /\
  status_of (HTTPException 400 "Incorrect email or password") = 400 /\
  status_of UnknownHashError = 500 /\
  status_of NullPasswordError = 500.
Proof.
  assert (H0 : find_one Demo.store "user" {["email" := VStr "nobody@x.com"]} = None)
    by (vm_compute; reflexivity).
  assert (H1 : find_one Demo.store "user" {["email" := VStr "c@x.com"]} = Some Demo.carol)
    by (vm_compute; reflexivity).
  assert (H2 : find_one Demo.store "user" {["email" := VStr "a@x.com"]} = Some Demo.alice)
    by (vm_compute; reflexivity).
  split; [exact H0|]. split; [exact H1|]. split; [exact H2|].
  split; [exact (login_no_user env "nobody@x.com" "pw" Demo.world Demo.store eq_refl H0)|].
  split.
  { apply (login_hash_missing env "c@x.com" "pw" Demo.world Demo.store Demo.carol eq_refl H1).
    vm_compute. reflexivity. }
  split.
  { exact (login_no_user Demo.env "nobody@x.com" (String Ascii.zero "pw")
             Demo.world Demo.store eq_refl H0). }
  split.
  { apply (login_verify_raises Demo.env "a@x.com" (String Ascii.zero "pw")
             Demo.world Demo.store Demo.alice NullPasswordError eq_refl H2).
    vm_compute. reflexivity. }
  split; [reflexivity|]. split; reflexivity.
Qed.

(** C6.  Registering an email that is not yet in the credential store,
    with a password the hasher accepts, succeeds: it stores the user
    and returns as bearer token the token [create_token] issues for
    that email.  Registering the same email again, with whatever name
    and password, fails with 400 "Email already registered" and stores
    nothing. *)
Theorem register_twice env w s name email password h :
  db w = Some s ->
  find_one s "user" {["email" := VStr email]} = None ->
  bcrypt_digest env (urandom w) password = inr h ->
  exists t w1,
    register env name email password w
      = (inr {| access_token := t; token_type := "bearer" |}, w1) /\
    create_token env {["sub" := VStr email]} None w = (inr t, w) /\
    t = issued_token env email (utcnow w + 86400) /\
    w1 = with_db w (Some (insert_one s "user" (User.model_dump (User.make name email h)))) /\
    forall w2 name' password',
      db w2 = db w1 ->
      register env name' email password' w2
      = (inl (HTTPException 400 "Email already registered"), w2).
Proof.
  intros Hdb Hf Hh.
  exists (issued_token env email (utcnow w + 86400)).
  exists (with_db w (Some (insert_one s "user" (User.model_dump (User.make name email h))))).
  split; [exact (register_fresh env name email password w s h Hdb Hf Hh)|].
  split; [exact (create_token_sub env email w)|].
  split; [reflexivity|]. split; [reflexivity|].
  intros w2 name' password' Hdb2. simpl in Hdb2.
  destruct (find_one_inserted s email (User.model_dump (User.make name email h)))
    as [u Hu]; [apply model_dump_email|].
  eapply register_taken; [exact Hdb2|exact Hu].
Qed.

Lemma register_twice_witness :
  exists t w1,
    register Demo.env "A" "a@x.com" "pw" Demo.empty_world
      = (inr {| access_token := t; token_type := "bearer" |}, w1) /\
    create_token Demo.env {["sub" := VStr "a@x.com"]} None Demo.empty_world
      = (inr t, Demo.empty_world) /\
    register Demo.env "A" "a@x.com" "pw" w1
      = (inl (HTTPException 400 "Email already registered"), w1).
Proof.
  destruct (register_twice Demo.env Demo.empty_world ∅ "A" "a@x.com" "pw" "$2b$pw$salt")
    as (t & w1 & H1 & H2 & _ & _ & H3).
  - reflexivity.
  - vm_compute. reflexivity.
  - vm_compute. reflexivity.
  - exists t, w1. split; [exact H1|]. split; [exact H2|]. now apply H3.
Defined.

(** C7.  Password verification is not total: on a hash string of no
    known scheme, such as the empty default that [login] passes for a
    stored user without a [password_hash] field, [verify_password]
    raises instead of returning false, and the login ends in an
    unhandled exception (status 500) rather than in 400 "Incorrect email
    or password". *)
Theorem login_without_hash_raises env :
  find_one Demo.store "user" {["email" := VStr "c@x.com"]} = Some Demo.carol /\
  Demo.carol !! "password_hash" = None /\
  verify_password env "pw" (VStr EmptyString) Demo.world = (inl UnknownHashError, Demo.world) /\
  login env "c@x.com" "pw" Demo.world = (inl UnknownHashError, Demo.world) /\
  status_of UnknownHashError = 500.
Proof.
  assert (Hf : find_one Demo.store "user" {["email" := VStr "c@x.com"]} = Some Demo.carol)
    by (vm_compute; reflexivity).
  assert (Hh : Demo.carol !! "password_hash" = None) by (vm_compute; reflexivity).
  split; [exact Hf|]. split; [exact Hh|]. split; [reflexivity|]. split; [|reflexivity].
  now apply (login_hash_missing env "c@x.com" "pw" Demo.world Demo.store Demo.carol).
Qed.

(** ** One-time codes *)

Lemma otp_filter_matches body d :
  otp_filter body ⊆ d <-> otp_record_matches body d.
Proof.
  unfold otp_filter, otp_record_matches. split.
  - intros Hsub. repeat split.
    + eapply lookup_weaken; [|exact Hsub]. apply lookup_insert_eq.
    + eapply lookup_weaken; [|exact Hsub].
      rewrite lookup_insert_ne by discriminate. apply lookup_insert_eq.
    + eapply lookup_weaken; [|exact Hsub].
      rewrite !lookup_insert_ne by discriminate. apply lookup_insert_eq.
  - intros (Ht & Hc & Hp).
    apply insert_subseteq_l; [exact Ht|].
    apply insert_subseteq_l; [exact Hc|].
    apply insert_subseteq_l; [exact Hp|].
    apply map_empty_subseteq.
Qed.

Lemma otp_filter_field body : otp_filter body !! "target" = Some (VStr (verify_target body)).
Proof. unfold otp_filter. apply lookup_insert_eq. Qed.

(** C8.  With the store configured, OTP verification fails with 400
    "Invalid code" exactly when no stored OTP record carries the given
    target, code and purpose.  When some record does, it succeeds with
    [{"verified": True}], also when that record's [expires_at] lies in
    the past, and in either case the store is left unchanged. *)
Theorem otp_verify_lookup_only w s body :
  db w = Some s ->
  (otp_verify body w = (inl (HTTPException 400 "Invalid code"), w) <->
   forall d, d ∈ collection s "otprequest" -> ~ otp_record_matches body d) /\
  ((exists d, d ∈ collection s "otprequest" /\ otp_record_matches body d) ->
   otp_verify body w = (inr {["verified" := VBool true]}, w)) /\
  (forall d t, d ∈ collection s "otprequest" -> otp_record_matches body d ->
               d !! "expires_at" = Some (VTime t) -> t < utcnow w ->
               otp_verify body w = (inr {["verified" := VBool true]}, w)) /\
  snd (otp_verify body w) = w.
Proof.
  intros Hdb.
  assert (Hnone : find_one s "otprequest" (otp_filter body) = None ->
                  otp_verify body w = (inl (HTTPException 400 "Invalid code"), w)).
  { intros Hf. unfold otp_verify, bind, read. rewrite Hdb, Hf. reflexivity. }
  assert (Hsome : forall r, find_one s "otprequest" (otp_filter body) = Some r ->
                  otp_verify body w = (inr {["verified" := VBool true]}, w)).
  { intros r Hf. unfold otp_verify, bind, read. rewrite Hdb, Hf.
    assert (Ht : truthy_dict (Some r) = true).
    { eapply find_one_truthy; [|exact Hf]. apply otp_filter_field. }
    rewrite Ht. reflexivity. }
  assert (Hex : (exists d, d ∈ collection s "otprequest" /\ otp_record_matches body d) ->
                otp_verify body w = (inr {["verified" := VBool true]}, w)).
  { intros (d & Hin & Hm).
    destruct (find_one s "otprequest" (otp_filter body)) as [r|] eqn:Hf.
    - now apply (Hsome r).
    - exfalso. apply (proj1 (find_one_None _ _ _) Hf d Hin). now apply otp_filter_matches. }
  split; [|split; [exact Hex|split]].
  - split.
    + intros Hv d Hin Hm. rewrite Hex in Hv by (now exists d). discriminate.
    + intros Hno. apply Hnone. apply find_one_None. intros d Hin Hsub.
      apply (Hno d Hin). now apply otp_filter_matches.
  - intros d t Hin Hm _ _. apply Hex. now exists d.
  - destruct (find_one s "otprequest" (otp_filter body)) as [r|] eqn:Hf.
    + now rewrite (Hsome r).
    + now rewrite Hnone.
Qed.

Lemma otp_verify_lookup_only_witness :
  Demo.stale_otp !! "expires_at" = Some (VTime 600) /\
  utcnow Demo.world = 1000 /\
  otp_verify {| verify_target := "a@x.com"; verify_code := "123456";
                verify_purpose := "login" |} Demo.world
    = (inr {["verified" := VBool true]}, Demo.world) /\
  otp_verify {| verify_target := "a@x.com"; verify_code := "654321";
                verify_purpose := "login" |} Demo.world
    = (inl (HTTPException 400 "Invalid code"), Demo.world).
Proof.
  split; [vm_compute; reflexivity|]. split; [reflexivity|]. split.
  - destruct (otp_verify_lookup_only Demo.world Demo.store
                {| verify_target := "a@x.com"; verify_code := "123456";
                   verify_purpose := "login" |} eq_refl) as (_ & _ & Hstale & _).
    apply (Hstale Demo.stale_otp 600).
    + vm_compute. apply list_elem_of_here.
    + vm_compute. repeat split.
    + vm_compute. reflexivity.
    + vm_compute. reflexivity.
  - destruct (otp_verify_lookup_only Demo.world Demo.store
                {| verify_target := "a@x.com"; verify_code := "654321";
                   verify_purpose := "login" |} eq_refl) as (Hiff & _).
    apply Hiff. intros d Hin (_ & Hc & _).
    assert (Hd : d = Demo.stale_otp).
    { vm_compute in Hin. now apply list_elem_of_singleton in Hin. }
    subst d. vm_compute in Hc. discriminate.
Defined.

(** ** An unconfigured store *)

(** C9, as stated, fails on the public read routes: without a store,
    GET /packages and GET /blog answer an empty list, not an error. *)
Lemma unconfigured_lists_succeed :
  db Demo.unconfigured = None /\
  list_packages Demo.env Demo.unconfigured = (inr [], Demo.unconfigured) /\
  list_posts Demo.env Demo.unconfigured = (inr [], Demo.unconfigured) /\
  ~ (exists detail, fst (list_packages Demo.env Demo.unconfigured)
                    = inl (HTTPException 500 detail)).
Proof.
  repeat split. intros [detail H]. discriminate.
Qed.

Lemma current_user_unconfigured env header w :
  db w = None ->
  exists detail, current_user env header w = (inl (HTTPException 401 detail), w).
Proof.
  intros Hdb.
  destruct (current_user_cases env header w)
    as [(a & p & u & _ & _ & _ & _ & Hu & _)|H]; [|exact H].
  unfold lookup_user in Hu. rewrite Hdb in Hu. discriminate.
Qed.

(** C9, amended.  When the store is not configured, the public routes
    that write or that check credentials (register, login, OTP start,
    OTP verify, create lead, create appointment) answer 500 "Database
    not configured"; GET /packages and GET /blog answer an empty list;
    and every route behind the middleware (POST /packages, POST /blog,
    GET /admin/leads, GET /admin/appointments, POST /upload, POST
    /payments/init) answers 401.  No route changes anything. *)
Theorem unconfigured_store env w :
  db w = None ->
  (forall name email password, register env name email password w = (inl not_configured, w)) /\
  (forall username password, login env username password w = (inl not_configured, w)) /\
  (forall body, otp_start body w = (inl not_configured, w)) /\
  (forall body, otp_verify body w = (inl not_configured, w)) /\
  (forall lead, create_lead lead w = (inl not_configured, w)) /\
  (forall appt, create_appointment appt w = (inl not_configured, w)) /\
  list_packages env w = (inr [], w) /\
  list_posts env w = (inr [], w) /\
  (forall header pkg, exists detail,
      post_packages env header pkg w = (inl (HTTPException 401 detail), w)) /\
  (forall header post, exists detail,
      post_blog env header post w = (inl (HTTPException 401 detail), w)) /\
  (forall header, exists detail,
      get_admin_leads env header w = (inl (HTTPException 401 detail), w)) /\
  (forall header, exists detail,
      get_admin_appointments env header w = (inl (HTTPException 401 detail), w)) /\
  (forall validate_email header filename, exists detail,
      post_upload env validate_email header filename w
      = (inl (HTTPException 401 detail), w)) /\
  (forall timestamp_text header body, exists detail,
      post_payments_init env timestamp_text header body w
      = (inl (HTTPException 401 detail), w)).
Proof.
  intros Hdb.
  repeat split; intros;
    try (unfold register, login, otp_start, otp_verify, create_lead, create_appointment,
           list_packages, list_posts, bind, read; rewrite Hdb; reflexivity);
    destruct (current_user_unconfigured env header w Hdb) as [detail Hc];
    exists detail;
    unfold post_packages, post_blog, get_admin_leads, get_admin_appointments,
      post_upload, post_payments_init;
    now rewrite (bind_inl _ _ _ _ _ Hc).
Qed.

Lemma unconfigured_store_witness :
  create_lead {| Lead.name := "L"; Lead.email := "l@x.com"; Lead.phone := None;
                 Lead.source := Some "website"; Lead.message := None;
                 Lead.status := "new" |} Demo.unconfigured
    = (inl (HTTPException 500 "Database not configured"), Demo.unconfigured) /\
  list_packages Demo.env Demo.unconfigured = (inr [], Demo.unconfigured) /\
  exists detail,
    post_upload Demo.env Scenario.accept_at (Demo.bearer (Demo.token_for "a@x.com" 0))
      (Some "cv.pdf") Demo.unconfigured
    = (inl (HTTPException 401 detail), Demo.unconfigured).
Proof.
  destruct (unconfigured_store Demo.env Demo.unconfigured eq_refl)
    as (_ & _ & _ & _ & Hlead & _ & Hlist & _ & _ & _ & _ & _ & Hup & _).
  split; [apply Hlead|]. split; [exact Hlist|apply Hup].
Defined.

(** ** A session from end to end *)

(** Registering and then logging in give two tokens, and each resolves
    through the middleware to the identity of the registered user, with
    role "user". *)
Example register_then_login :
  let t1 := Demo.token_for "a@x.com" 1000 in
  let t2 := Demo.token_for "a@x.com" 1060 in
  let w1 := Demo.later (snd (register Demo.env "A" "a@x.com" "pw" Demo.empty_world)) 60 in
  fst (register Demo.env "A" "a@x.com" "pw" Demo.empty_world)
    = inr {| access_token := t1; token_type := "bearer" |} /\
  login Demo.env "a@x.com" "pw" w1
    = (inr {| access_token := t2; token_type := "bearer" |}, w1) /\
  (exists ident, current_user Demo.env (Demo.bearer t1) w1 = (inr ident, w1) /\
                 ident !! "email" = Some (VStr "a@x.com") /\
                 ident !! "role" = Some (VStr "user")) /\
  (exists ident, current_user Demo.env (Demo.bearer t2) w1 = (inr ident, w1) /\
                 ident !! "email" = Some (VStr "a@x.com") /\
                 ident !! "role" = Some (VStr "user")).
Proof.
  split; [vm_compute; reflexivity|]. split; [vm_compute; reflexivity|].
  split; eexists; (split; [vm_compute; reflexivity|]); split; vm_compute; reflexivity.
Qed.

(** * Further properties *)

(** ** The middleware, outcome by outcome *)

(** X1.  Whenever [get_current_user] fails, it fails with status 401
    and one of two details, "Token expired" or "Invalid token", and it
    leaves the world as it was.  "Token expired" is answered exactly
    when decoding raised [ExpiredSignatureError]; the detail "User not
    found" raised inside the [try] block never reaches the caller. *)
Theorem get_current_user_failure_details env t w e w' :
  get_current_user env t w = (inl e, w') ->
  w' = w /\
  (e = HTTPException 401 "Token expired" \/ e = HTTPException 401 "Invalid token") /\
  (e = HTTPException 401 "Token expired" <->
   Jwt.decode_at (hmac env) (utcnow w) t (JWT_SECRET env) [JWT_ALGO]
   = inl ExpiredSignatureError).
Proof.
  destruct (Jwt.decode_at (hmac env) (utcnow w) t (JWT_SECRET env) [JWT_ALGO])
    as [ex|p] eqn:Hd.
  - rewrite (get_current_user_decode_error _ _ _ _ Hd).
    destruct ex; simpl; intros [= <- <-];
      (split; [reflexivity|]); (split; [auto|]); split; intros H; try reflexivity;
      discriminate.
  - destruct (truthy (get p "sub")) eqn:Hs.
    + destruct (lookup_user w (get p "sub")) as [u|] eqn:Hu.
      * rewrite (get_current_user_found _ _ _ _ _ Hd Hs Hu). discriminate.
      * rewrite (get_current_user_no_user _ _ _ _ Hd Hs Hu). intros [= <- <-].
        split; [reflexivity|]. split; [auto|]. split; discriminate.
    + rewrite (get_current_user_no_subject _ _ _ _ Hd Hs). intros [= <- <-].
      split; [reflexivity|]. split; [auto|]. split; discriminate.
Qed.

Lemma get_current_user_failure_details_witness :
  get_current_user Demo.env (Demo.token_for "nobody@x.com" 0) Demo.world
    = (inl (HTTPException 401 "Invalid token"), Demo.world) /\
  (HTTPException 401 "Invalid token" = HTTPException 401 "Token expired" \/
   HTTPException 401 "Invalid token" = HTTPException 401 "Invalid token").
Proof.
  assert (H : get_current_user Demo.env (Demo.token_for "nobody@x.com" 0) Demo.world
              = (inl (HTTPException 401 "Invalid token"), Demo.world))
    by (vm_compute; reflexivity).
  split; [exact H|].
  exact (proj1 (proj2 (get_current_user_failure_details _ _ _ _ _ H))).
Defined.

(** X2.  Whenever [get_current_user] returns an identity, the token
    decoded, its subject is truthy and the store holds a user whose
    [email] is that subject; the identity has exactly the fields
    [email], [name] and [role], taken from that stored user (the role
    defaulting to "user"), and no other field of the user record, such
    as the password hash, is passed on.  The world is unchanged. *)
Theorem get_current_user_identity env t w ident w' :
  get_current_user env t w = (inr ident, w') ->
  w' = w /\
  exists p u,
    Jwt.decode_at (hmac env) (utcnow w) t (JWT_SECRET env) [JWT_ALGO] = inr p /\
    truthy (get p "sub") = true /\
    lookup_user w (get p "sub") = Some u /\
    u !! "email" = Some (get p "sub") /\
    ident !! "email" = Some (get p "sub") /\
    ident !! "name" = Some (get u "name") /\
    ident !! "role" = Some (get_or u "role" (VStr "user")) /\
    forall k, k <> "email" -> k <> "name" -> k <> "role" -> ident !! k = None.
Proof.
  destruct (get_current_user_cases env t w) as [(p & u & Hd & Hs & Hu & Hg)|[d Hg]];
    rewrite Hg; [|discriminate].
  intros [= <- <-]. split; [reflexivity|]. exists p, u.
  split; [exact Hd|]. split; [exact Hs|]. split; [exact Hu|].
  split.
  { unfold lookup_user in Hu. destruct (db w) as [s|]; [|discriminate].
    apply find_one_Some in Hu as [_ Hsub].
    eapply lookup_weaken; [|exact Hsub]. apply lookup_singleton_eq. }
  unfold identity_of. split; [apply lookup_insert_eq|].
  split; [rewrite lookup_insert_ne by discriminate; apply lookup_insert_eq|].
  split; [rewrite !lookup_insert_ne by discriminate; apply lookup_insert_eq|].
  intros k H1 H2 H3. rewrite !lookup_insert_ne by congruence. apply lookup_empty.
Qed.

Lemma get_current_user_identity_witness :
  exists ident,
    get_current_user Demo.env (Demo.token_for "a@x.com" 0) Demo.world
      = (inr ident, Demo.world) /\
    ident !! "role" = Some (VStr "user") /\
    ident !! "password_hash" = None.
Proof.
  assert (H : get_current_user Demo.env (Demo.token_for "a@x.com" 0) Demo.world
              = (inr (identity_of Demo.alice (VStr "a@x.com")), Demo.world))
    by (vm_compute; reflexivity).
  exists (identity_of Demo.alice (VStr "a@x.com")). split; [exact H|].
  destruct (get_current_user_identity _ _ _ _ _ H) as (_ & p & u & _ & _ & _ & _ & _ & _ & _ & Hk).
  split; [vm_compute; reflexivity|].
  apply Hk; discriminate.
Defined.

(** X3.  The identity depends on the token only through its subject:
    two tokens that both decode and name the same subject resolve to
    the same outcome, whatever else they claim.  A [role] claim in the
    token grants nothing; the role is the stored one. *)
Theorem identity_from_subject_only env t1 t2 w p1 p2 :
  Jwt.decode_at (hmac env) (utcnow w) t1 (JWT_SECRET env) [JWT_ALGO] = inr p1 ->
  Jwt.decode_at (hmac env) (utcnow w) t2 (JWT_SECRET env) [JWT_ALGO] = inr p2 ->
  get p1 "sub" = get p2 "sub" ->
  get_current_user env t1 w = get_current_user env t2 w.
Proof.
  intros H1 H2 Hsub.
  destruct (truthy (get p1 "sub")) eqn:Hs.
  - destruct (lookup_user w (get p1 "sub")) as [u|] eqn:Hu.
    + rewrite (get_current_user_found _ _ _ _ _ H1 Hs Hu).
      rewrite Hsub in Hs, Hu. rewrite (get_current_user_found _ _ _ _ _ H2 Hs Hu).
      now rewrite Hsub.
    + rewrite (get_current_user_no_user _ _ _ _ H1 Hs Hu).
      rewrite Hsub in Hs, Hu. now rewrite (get_current_user_no_user _ _ _ _ H2 Hs Hu).
  - rewrite (get_current_user_no_subject _ _ _ _ H1 Hs).
    rewrite Hsub in Hs. now rewrite (get_current_user_no_subject _ _ _ _ H2 Hs).
Qed.

Lemma identity_from_subject_only_witness :
  get_current_user Scenario.env Scenario.boasting_token Scenario.world
    = get_current_user Scenario.env (Demo.token_for "a@x.com" 0) Scenario.world /\
  create_package Demo.package (identity_of Demo.alice (VStr "a@x.com")) Scenario.world
    = (inl forbidden, Scenario.world).
Proof.
  split; [|reflexivity].
  apply (identity_from_subject_only Scenario.env _ _ Scenario.world
           (<["role" := VStr "admin"]> (issued_claims "a@x.com" 90000))
           (issued_claims "a@x.com" 86400)).
  - vm_compute. reflexivity.
  - vm_compute. reflexivity.
  - vm_compute. reflexivity.
Defined.

(** X4.  A token whose header names any algorithm other than "HS256"
    is answered 401 "Invalid token", whatever its claims and signature. *)
Theorem other_algorithm_rejected env j w :
  Jwt.alg j <> "HS256" ->
  get_current_user env (Jwt.Compact j) w = (inl (HTTPException 401 "Invalid token"), w).
Proof.
  intros Ha.
  assert (Hd : Jwt.decode_at (hmac env) (utcnow w) (Jwt.Compact j) (JWT_SECRET env) [JWT_ALGO]
               = inl InvalidAlgorithmError).
  { unfold Jwt.decode_at. rewrite bool_decide_eq_false_2; [reflexivity|].
    intros Hin. apply list_elem_of_singleton in Hin. contradiction. }
  now rewrite (get_current_user_decode_error _ _ _ _ Hd).
Qed.

Lemma other_algorithm_rejected_witness :
  get_current_user Demo.env
    (Jwt.Compact {| Jwt.alg := "none"; Jwt.payload := issued_claims "a@x.com" 86400;
                    Jwt.signature := EmptyString |}) Demo.world
  = (inl (HTTPException 401 "Invalid token"), Demo.world).
Proof.
  apply other_algorithm_rejected. simpl. discriminate.
Defined.

(** ** Issued tokens *)

Lemma create_token_delta env e delta w :
  create_token env {["sub" := VStr e]} delta w
  = (inr (issued_token env e (utcnow w + lifetime delta)), w).
Proof.
  unfold create_token, bind, read, Jwt.encode, lifetime, issued_token.
  change (timedelta_minutes TOKEN_EXPIRE_MINUTES) with 86400.
  rewrite numeric_dates_issue.
  now rewrite (bool_decide_eq_true_2 _ (issued_claims_serialisable e _)).
Qed.

Lemma decode_issued_token env e x now :
  Jwt.decode_at (hmac env) now (issued_token env e x) (JWT_SECRET env) [JWT_ALGO]
  = if Z.leb x now then inl ExpiredSignatureError else inr (issued_claims e x).
Proof. apply decode_issued. Qed.

(** X5.  The token issued for subject [e] at time T resolves to an
    identity at a later moment exactly when [e] is not the empty
    string, the clock is still before T + 24h, and the store then holds
    a user with email [e]. *)
Theorem issued_token_authenticates_iff env e w w' :
  exists t,
    create_token env {["sub" := VStr e]} None w = (inr t, w) /\
    ((exists ident, get_current_user env t w' = (inr ident, w')) <->
     e <> EmptyString /\ utcnow w' < utcnow w + 86400 /\
     exists u, lookup_user w' (VStr e) = Some u).
Proof.
  exists (issued_token env e (utcnow w + 86400)).
  split; [apply (create_token_delta env e None w)|].
  pose proof (decode_issued_token env e (utcnow w + 86400) (utcnow w')) as Hd.
  assert (Hsub : get (issued_claims e (utcnow w + 86400)) "sub" = VStr e).
  { unfold get. now rewrite issued_claims_sub. }
  split.
  - intros [ident Hg].
    destruct (get_current_user_cases env (issued_token env e (utcnow w + 86400)) w')
      as [(p & u & Hp & Hs & Hu & _)|[d Hf]]; [|rewrite Hf in Hg; discriminate].
    rewrite Hd in Hp. destruct (Z.leb_spec (utcnow w + 86400) (utcnow w')); [discriminate|].
    injection Hp as <-. rewrite Hsub in Hs, Hu.
    split; [|split; [lia|now exists u]].
    intros ->. discriminate.
  - intros (Hne & Hlt & u & Hu).
    destruct (Z.leb_spec (utcnow w + 86400) (utcnow w')); [lia|].
    exists (identity_of u (VStr e)).
    pose proof (get_current_user_found env _ w' _ u Hd) as Hf.
    rewrite Hsub in Hf. apply Hf; [|exact Hu].
    simpl. apply negb_true_iff. now apply String.eqb_neq.
Qed.

(** X6.  While the sum stays within the range of [datetime],
    [create_token] with an explicit lifetime [d] sets the expiry to
    now + [d], except that a zero [d] gives the default 24 hours;
    verification accepts the token strictly before that expiry and
    raises [ExpiredSignatureError] from it on.  A token issued with a
    negative lifetime is therefore expired from the moment it is
    issued. *)
Theorem create_token_lifetime env e d w w' :
  is_datetime (utcnow w) ->
  is_datetime (utcnow w + (if Z.eqb d 0 then 86400 else d)) ->
  let exp := utcnow w + (if Z.eqb d 0 then 86400 else d) in
  exists t,
    create_token env {["sub" := VStr e]} (Some d) w = (inr t, w) /\
    Jwt.decode (hmac env) t (JWT_SECRET env) [JWT_ALGO] w'
    = (if Z.leb exp (utcnow w') then inl ExpiredSignatureError
       else inr (issued_claims e exp), w') /\
    (d = 0 -> create_token env {["sub" := VStr e]} None w = (inr t, w)) /\
    (d < 0 -> Jwt.decode (hmac env) t (JWT_SECRET env) [JWT_ALGO] w
              = (inl ExpiredSignatureError, w)).
Proof.
  intros _ _ exp. exists (issued_token env e exp).
  split; [apply (create_token_delta env e (Some d) w)|].
  split; [unfold Jwt.decode; now rewrite decode_issued_token|].
  split.
  - intros ->. apply (create_token_delta env e None w).
  - intros Hneg. unfold Jwt.decode. rewrite decode_issued_token.
    subst exp. destruct (Z.eqb_spec d 0); [lia|].
    destruct (Z.leb_spec (utcnow w + d) (utcnow w)); [reflexivity|lia].
Qed.

Lemma create_token_lifetime_witness :
  is_datetime (utcnow Demo.world) /\
  is_datetime (utcnow Demo.world + -60) /\
  exists t,
    create_token Demo.env {["sub" := VStr "a@x.com"]} (Some (-60)) Demo.world
      = (inr t, Demo.world) /\
    Jwt.decode (hmac Demo.env) t (JWT_SECRET Demo.env) [JWT_ALGO] Demo.world
      = (inl ExpiredSignatureError, Demo.world).
Proof.
  assert (H1 : is_datetime (utcnow Demo.world)) by (vm_compute; split; discriminate).
  assert (H2 : is_datetime (utcnow Demo.world + -60)) by (vm_compute; split; discriminate).
  split; [exact H1|]. split; [exact H2|].
  destruct (create_token_lifetime Demo.env "a@x.com" (-60) Demo.world Demo.world H1 H2)
    as (t & Ht & _ & _ & Hneg).
  exists t. split; [exact Ht|]. apply Hneg. reflexivity.
Defined.

(** ** Registration and login, composed *)

Lemma find_one_insert_fresh s name flt d :
  find_one s name flt = None -> flt ⊆ d ->
  find_one (insert_one s name d) name flt = Some d.
Proof.
  intros Hn Hsub. unfold find_one in *. rewrite collection_insert_one, find_app, Hn.
  simpl. unfold matches. now rewrite bool_decide_eq_true_2.
Qed.

Lemma find_one_insert_kept s name flt d u :
  find_one s name flt = Some u ->
  find_one (insert_one s name d) name flt = Some u.
Proof.
  intros Hs. unfold find_one in *. now rewrite collection_insert_one, find_app, Hs.
Qed.

Lemma collection_insert_one_other s name other d :
  other <> name -> collection (insert_one s name d) other = collection s other.
Proof.
  intros Hne. unfold insert_one, collection. now rewrite lookup_insert_ne by congruence.
Qed.

Lemma found_email s username u :
  find_one s "user" {["email" := VStr username]} = Some u ->
  u !! "email" = Some (VStr username).
Proof.
  intros Hf. apply find_one_Some in Hf as [_ Hsub].
  eapply lookup_weaken; [|exact Hsub]. apply lookup_singleton_eq.
Qed.

Lemma login_success env username password w s u :
  db w = Some s ->
  find_one s "user" {["email" := VStr username]} = Some u ->
  verify_password env password (get_or u "password_hash" (VStr EmptyString)) w = (inr true, w) ->
  login env username password w
  = (inr {| access_token := issued_token env username (utcnow w + 86400);
            token_type := "bearer" |}, w).
Proof.
  intros Hdb Hf Hv. rewrite (login_found _ _ _ _ _ _ Hdb Hf).
  unfold bind at 1. rewrite Hv. cbn [negb].
  unfold bind at 1, subscript. rewrite (found_email _ _ _ Hf). unfold ret at 1.
  unfold bind. now rewrite (create_token_delta env username None w).
Qed.

Lemma user_dump_fields u :
  User.model_dump u !! "name" = Some (VStr (User.name u)) /\
  User.model_dump u !! "email" = Some (VStr (User.email u)) /\
  User.model_dump u !! "phone" = Some (opt_str (User.phone u)) /\
  User.model_dump u !! "password_hash" = Some (opt_str (User.password_hash u)) /\
  User.model_dump u !! "role" = Some (VStr (User.role u)) /\
  User.model_dump u !! "is_verified" = Some (VBool (User.is_verified u)).
Proof.
  unfold User.model_dump.
  repeat split; rewrite ?lookup_insert_ne by discriminate; apply lookup_insert_eq.
Qed.

Lemma register_success_inv env name email password w t w1 :
  register env name email password w = (inr t, w1) ->
  exists s h,
    db w = Some s /\
    find_one s "user" {["email" := VStr email]} = None /\
    bcrypt_digest env (urandom w) password = inr h /\
    t = {| access_token := issued_token env email (utcnow w + 86400);
           token_type := "bearer" |} /\
    w1 = with_db w (Some (insert_one s "user" (User.model_dump (User.make name email h)))).
Proof.
  destruct (db w) as [s|] eqn:Hdb.
  - destruct (find_one s "user" {["email" := VStr email]}) as [u|] eqn:Hf.
    + rewrite (register_taken env name email password w s u Hdb Hf). discriminate.
    + destruct (bcrypt_digest env (urandom w) password) as [e|h] eqn:Hh.
      * rewrite (register_hash_fails env name email password w s e Hdb Hf Hh). discriminate.
      * pose proof (register_fresh env name email password w s h Hdb Hf Hh) as Hr.
        cbn zeta in Hr. rewrite Hr. intros [= <- <-]. now exists s, h.
  - unfold register, bind, read. rewrite Hdb. discriminate.
Qed.

(** X7.  A successful registration appends exactly one document to the
    [user] collection and touches no other collection.  The stored
    user has the given name and email, the hash the hasher returned for
    the password under the drawn salt, no phone, is unverified, and
    always has role "user": registration cannot create an
    administrator.  The token returned is the one issued for the email. *)
Theorem register_stores_plain_user env name email password w t w1 :
  register env name email password w = (inr t, w1) ->
  exists s h doc,
    db w = Some s /\
    bcrypt_digest env (urandom w) password = inr h /\
    t = {| access_token := issued_token env email (utcnow w + 86400);
           token_type := "bearer" |} /\
    w1 = with_db w (Some (insert_one s "user" doc)) /\
    collection (insert_one s "user" doc) "user" = (collection s "user" ++ [doc])%list /\
    (forall other, other <> "user" ->
                   collection (insert_one s "user" doc) other = collection s other) /\
    doc !! "name" = Some (VStr name) /\
    doc !! "email" = Some (VStr email) /\
    doc !! "password_hash" = Some (VStr h) /\
    doc !! "role" = Some (VStr "user") /\
    doc !! "is_verified" = Some (VBool false) /\
    doc !! "phone" = Some VNone.
Proof.
  intros Hr.
  destruct (register_success_inv env name email password w t w1 Hr)
    as (s & h & Hdb & _ & Hh & Ht & Hw).
  exists s, h, (User.model_dump (User.make name email h)).
  split; [exact Hdb|]. split; [exact Hh|]. split; [exact Ht|]. split; [exact Hw|].
  split; [apply collection_insert_one|].
  split; [intros other Hne; now apply collection_insert_one_other|].
  destruct (user_dump_fields (User.make name email h)) as (H1 & H2 & H3 & H4 & H5 & H6).
  split; [exact H1|]. split; [exact H2|]. split; [exact H4|]. split; [exact H5|].
  split; [exact H6|exact H3].
Qed.

Lemma register_stores_plain_user_witness :
  exists t w1 s h doc,
    register Demo.env "A" "a@x.com" "pw" Demo.empty_world = (inr t, w1) /\
    db Demo.empty_world = Some s /\
    bcrypt_digest Demo.env (urandom Demo.empty_world) "pw" = inr h /\
    w1 = with_db Demo.empty_world (Some (insert_one s "user" doc)) /\
    doc !! "role" = Some (VStr "user").
Proof.
  assert (Hr : register Demo.env "A" "a@x.com" "pw" Demo.empty_world
               = (inr {| access_token := issued_token Demo.env "a@x.com" 87400;
                         token_type := "bearer" |},
                  with_db Demo.empty_world
                    (Some (insert_one ∅ "user"
                             (User.model_dump (User.make "A" "a@x.com" "$2b$pw$salt"))))))
    by (vm_compute; reflexivity).
  destruct (register_stores_plain_user _ _ _ _ _ _ _ Hr)
    as (s & h & doc & Hdb & Hh & _ & Hw & _ & _ & _ & _ & _ & Hrole & _).
  eexists. eexists. exists s, h, doc.
  split; [exact Hr|]. split; [exact Hdb|]. split; [exact Hh|]. split; [exact Hw|exact Hrole].
Defined.

(** X8.  The token a successful registration returns resolves, at any
    time within 24 hours and as long as the store is as registration
    left it, to the identity of the new user with role "user"; with it
    every admin route answers 403 Forbidden. *)
Theorem registered_user_is_not_admin env name email password w t w1 w2 pkg post :
  register env name email password w
    = (inr {| access_token := t; token_type := "bearer" |}, w1) ->
  email <> EmptyString ->
  db w2 = db w1 ->
  utcnow w2 < utcnow w + 86400 ->
  let header := Some {| scheme := "Bearer"; param := t |} in
  current_user env header w2
    = (inr (<["email" := VStr email]> (<["name" := VStr name]>
            (<["role" := VStr "user"]> ∅))), w2) /\
  post_packages env header pkg w2 = (inl forbidden, w2) /\
  post_blog env header post w2 = (inl forbidden, w2) /\
  get_admin_leads env header w2 = (inl forbidden, w2) /\
  get_admin_appointments env header w2 = (inl forbidden, w2).
Proof.
  intros Hr Hne Hdb2 Hlt.
  destruct (register_success_inv env name email password w _ w1 Hr)
    as (s & h & Hdb & Hf & Hh & Ht & Hw).
  injection Ht as ->. subst w1. simpl in Hdb2. cbn zeta.
  set (doc := User.model_dump (User.make name email h)) in *.
  destruct (user_dump_fields (User.make name email h))
    as (Hname & Hemail & _ & _ & Hrole & _). fold doc in Hname, Hemail, Hrole.
  assert (Hu : lookup_user w2 (VStr email) = Some doc).
  { unfold lookup_user. rewrite Hdb2. apply find_one_insert_fresh; [exact Hf|].
    now apply map_singleton_subseteq_l. }
  assert (Hd : Jwt.decode_at (hmac env) (utcnow w2) (issued_token env email (utcnow w + 86400))
                 (JWT_SECRET env) [JWT_ALGO] = inr (issued_claims email (utcnow w + 86400))).
  { rewrite decode_issued_token.
    destruct (Z.leb_spec (utcnow w + 86400) (utcnow w2)); [lia|reflexivity]. }
  assert (Hsub : get (issued_claims email (utcnow w + 86400)) "sub" = VStr email).
  { unfold get. now rewrite issued_claims_sub. }
  assert (Hc : current_user env
                 (Some {| scheme := "Bearer";
                          param := issued_token env email (utcnow w + 86400) |}) w2
               = (inr (<["email" := VStr email]> (<["name" := VStr name]>
                       (<["role" := VStr "user"]> ∅))), w2)).
  { rewrite current_user_bearer by reflexivity. cbn [param].
    pose proof (get_current_user_found env _ w2 _ doc Hd) as Hg.
    rewrite Hsub in Hg. rewrite Hg; [|simpl; apply negb_true_iff; now apply String.eqb_neq|exact Hu].
    unfold identity_of, get, get_or. now rewrite Hname, Hrole. }
  split; [exact Hc|].
  assert (Hrole' : get (<["email" := VStr email]> (<["name" := VStr name]>
                         (<["role" := VStr "user"]> ∅))) "role" <> VStr "admin").
  { unfold get. rewrite !lookup_insert_ne by discriminate. rewrite lookup_insert_eq.
    discriminate. }
  unfold post_packages, post_blog, get_admin_leads, get_admin_appointments.
  rewrite !(bind_inr _ _ _ _ _ Hc).
  split; [now apply create_package_forbidden|].
  split; [now apply create_post_forbidden|].
  split; [now apply admin_leads_forbidden|now apply admin_appointments_forbidden].
Qed.

Lemma registered_user_is_not_admin_witness :
  exists t w1,
    register Demo.env "Z" "z@x.com" "pw" Demo.world
      = (inr {| access_token := t; token_type := "bearer" |}, w1) /\
    post_packages Demo.env (Some {| scheme := "Bearer"; param := t |}) Demo.package
      (Demo.later w1 3600)
    = (inl forbidden, Demo.later w1 3600).
Proof.
  set (w1 := with_db Demo.world
               (Some (insert_one Demo.store "user"
                        (User.model_dump (User.make "Z" "z@x.com" "$2b$pw$salt"))))).
  assert (Hr : register Demo.env "Z" "z@x.com" "pw" Demo.world
               = (inr {| access_token := issued_token Demo.env "z@x.com" 87400;
                         token_type := "bearer" |}, w1))
    by (vm_compute; reflexivity).
  exists (issued_token Demo.env "z@x.com" 87400), w1. split; [exact Hr|].
  destruct (registered_user_is_not_admin Demo.env "Z" "z@x.com" "pw" Demo.world
              (issued_token Demo.env "z@x.com" 87400) w1 (Demo.later w1 3600)
              Demo.package Demo.post Hr) as (_ & Hp & _).
  - intros H. discriminate H.
  - reflexivity.
  - vm_compute. reflexivity.
  - exact Hp.
Defined.

(** X9.  When the hasher accepts the password and the bcrypt handler
    recognises the hash it produced and verifies the password against
    it, a login with the registered email and password succeeds in the
    store registration left behind, at any later time, and returns a
    token for that email valid for 24 hours from the login; a password
    the handler does not verify is answered 400 "Incorrect email or
    password". *)
Theorem login_after_register env name email password w s h w2 :
  db w = Some s ->
  find_one s "user" {["email" := VStr email]} = None ->
  bcrypt_digest env (urandom w) password = inr h ->
  Passlib.identify h = true ->
  bcrypt_check env password h = inr true ->
  db w2 = db (snd (register env name email password w)) ->
  login env email password w2
    = (inr {| access_token := issued_token env email (utcnow w2 + 86400);
              token_type := "bearer" |}, w2) /\
  forall other,
    bcrypt_check env other h = inr false ->
    login env email other w2
    = (inl (HTTPException 400 "Incorrect email or password"), w2).
Proof.
  intros Hdb Hf Hdg Hid Hck Hdb2.
  pose proof (register_fresh env name email password w s h Hdb Hf Hdg) as Hr. simpl in Hr.
  set (doc := User.model_dump (User.make name email h)) in *.
  rewrite Hr in Hdb2. simpl in Hdb2.
  assert (Hu : find_one (insert_one s "user" doc) "user" {["email" := VStr email]} = Some doc).
  { apply find_one_insert_fresh; [exact Hf|].
    apply map_singleton_subseteq_l. apply model_dump_email. }
  assert (Hh : get_or doc "password_hash" (VStr EmptyString) = VStr h).
  { unfold get_or.
    destruct (user_dump_fields (User.make name email h)) as (_ & _ & _ & H4 & _).
    fold doc in H4. now rewrite H4. }
  split.
  - apply (login_success env email password w2 _ doc Hdb2 Hu).
    rewrite Hh. unfold verify_password, Passlib.verify. rewrite Hid. unfold lift.
    now rewrite Hck.
  - intros other Hno.
    apply (login_wrong_password env email other w2 _ doc Hdb2 Hu).
    rewrite Hh. unfold verify_password, Passlib.verify. rewrite Hid. unfold lift.
    now rewrite Hno.
Qed.

Lemma login_after_register_witness :
  let w1 := Demo.later (snd (register Demo.env "Z" "z@x.com" "pw" Demo.world)) 7200 in
  login Demo.env "z@x.com" "pw" w1
    = (inr {| access_token := issued_token Demo.env "z@x.com" (utcnow w1 + 86400);
              token_type := "bearer" |}, w1) /\
  login Demo.env "z@x.com" "guess" w1
    = (inl (HTTPException 400 "Incorrect email or password"), w1).
Proof.
  intros w1.
  destruct (login_after_register Demo.env "Z" "z@x.com" "pw" Demo.world Demo.store
              "$2b$pw$salt" w1)
    as [Hok Hbad].
  - reflexivity.
  - vm_compute. reflexivity.
  - vm_compute. reflexivity.
  - vm_compute. reflexivity.
  - vm_compute. reflexivity.
  - reflexivity.
  - split; [exact Hok|]. apply Hbad. vm_compute. reflexivity.
Defined.

(** X10.  Registration fails in exactly three ways: 500 "Database not
    configured" when there is no store, 400 "Email already registered"
    when a user with that email is already stored, and the exception
    of the hasher when it refuses the password of a new email, which
    nothing in [register] catches.  In all three it writes nothing. *)
Theorem register_failure_modes env name email password w e w' :
  register env name email password w = (inl e, w') ->
  w' = w /\
  ((e = HTTPException 500 "Database not configured" /\ db w = None) \/
   (e = HTTPException 400 "Email already registered" /\
    exists s u, db w = Some s /\ find_one s "user" {["email" := VStr email]} = Some u) \/
   (exists s, db w = Some s /\ find_one s "user" {["email" := VStr email]} = None /\
              bcrypt_digest env (urandom w) password = inl e)).
Proof.
  destruct (db w) as [s|] eqn:Hdb.
  - destruct (find_one s "user" {["email" := VStr email]}) as [u|] eqn:Hf.
    + rewrite (register_taken env name email password w s u Hdb Hf).
      intros [= <- <-]. split; [reflexivity|]. right. left. split; [reflexivity|].
      now exists s, u.
    + destruct (bcrypt_digest env (urandom w) password) as [ex|h] eqn:Hh.
      * rewrite (register_hash_fails env name email password w s ex Hdb Hf Hh).
        intros [= <- <-]. split; [reflexivity|]. right. right. now exists s.
      * pose proof (register_fresh env name email password w s h Hdb Hf Hh) as Hr.
        cbn zeta in Hr. rewrite Hr. discriminate.
  - unfold register, bind, read. rewrite Hdb. intros [= <- <-].
    split; [reflexivity|]. left. now split.
Qed.

Lemma register_failure_modes_witness :
  register Demo.env "Z" "z@x.com" (String Ascii.zero "pw") Demo.world
    = (inl NullPasswordError, Demo.world) /\
  exists s, db Demo.world = Some s /\
            find_one s "user" {["email" := VStr "z@x.com"]} = None /\
            bcrypt_digest Demo.env (urandom Demo.world) (String Ascii.zero "pw")
            = inl NullPasswordError.
Proof.
  assert (H : register Demo.env "Z" "z@x.com" (String Ascii.zero "pw") Demo.world
              = (inl NullPasswordError, Demo.world))
    by (vm_compute; reflexivity).
  split; [exact H|].
  destruct (register_failure_modes _ _ _ _ _ _ _ H) as [_ [[Hc _]|[[Hc _]|Hex]]].
  - discriminate Hc.
  - discriminate Hc.
  - exact Hex.
Defined.

(** X11.  Whenever a login succeeds, the store holds a user with the
    given email whose stored hash the password verified against, the
    token returned is the one issued for that email with expiry 24
    hours after the login, and the world is unchanged. *)
Theorem login_success_conditions env username password w t w' :
  login env username password w = (inr t, w') ->
  w' = w /\
  exists s u,
    db w = Some s /\
    find_one s "user" {["email" := VStr username]} = Some u /\
    verify_password env password (get_or u "password_hash" (VStr EmptyString)) w
      = (inr true, w) /\
    t = {| access_token := issued_token env username (utcnow w + 86400);
           token_type := "bearer" |}.
Proof.
  destruct (db w) as [s|] eqn:Hdb.
  - destruct (find_one s "user" {["email" := VStr username]}) as [u|] eqn:Hf.
    + pose proof (verify_password_world env password
                    (get_or u "password_hash" (VStr EmptyString)) w) as Hw.
      destruct (verify_password env password
                  (get_or u "password_hash" (VStr EmptyString)) w) as [[ex|[|]] wv] eqn:Hv;
        simpl in Hw; subst wv.
      * rewrite (login_found _ _ _ _ _ _ Hdb Hf). unfold bind at 1. rewrite Hv. discriminate.
      * rewrite (login_success env username password w s u Hdb Hf Hv).
        intros [= <- <-]. split; [reflexivity|]. now exists s, u.
      * rewrite (login_wrong_password env username password w s u Hdb Hf); [discriminate|].
        now rewrite Hv.
    + rewrite (login_no_user env username password w s Hdb Hf). discriminate.
  - unfold login, bind, read. rewrite Hdb. discriminate.
Qed.

Lemma login_success_conditions_witness :
  exists s u,
    db Demo.world = Some s /\
    find_one s "user" {["email" := VStr "a@x.com"]} = Some u /\
    verify_password Demo.env "pw" (get_or u "password_hash" (VStr EmptyString)) Demo.world
      = (inr true, Demo.world).
Proof.
  assert (H : login Demo.env "a@x.com" "pw" Demo.world
              = (inr {| access_token := issued_token Demo.env "a@x.com" 87400;
                        token_type := "bearer" |}, Demo.world))
    by (vm_compute; reflexivity).
  destruct (login_success_conditions _ _ _ _ _ _ H) as (_ & s & u & H1 & H2 & H3 & _).
  exists s, u. split; [exact H1|]. split; [exact H2|exact H3].
Defined.

(** X12.  A stored user whose [password_hash] is present but null can
    never log in: whatever the password, the answer is 400 "Incorrect
    email or password". *)
Theorem login_null_hash env username password w s u :
  db w = Some s ->
  find_one s "user" {["email" := VStr username]} = Some u ->
  u !! "password_hash" = Some VNone ->
  login env username password w
  = (inl (HTTPException 400 "Incorrect email or password"), w).
Proof.
  intros Hdb Hf Hh.
  apply (login_wrong_password env username password w s u Hdb Hf).
  unfold get_or. rewrite Hh. reflexivity.
Qed.

Lemma login_null_hash_witness :
  login Demo.env "root@x.com" "anything" Scenario.world
  = (inl (HTTPException 400 "Incorrect email or password"), Scenario.world).
Proof.
  apply (login_null_hash Demo.env "root@x.com" "anything" Scenario.world
           Scenario.store Scenario.root_user).
  - reflexivity.
  - vm_compute. reflexivity.
  - vm_compute. reflexivity.
Defined.

(** ** Routes that only read *)

Lemma login_world env username password w : snd (login env username password w) = w.
Proof.
  destruct (db w) as [s|] eqn:Hdb.
  - destruct (find_one s "user" {["email" := VStr username]}) as [u|] eqn:Hf.
    + pose proof (verify_password_world env password
                    (get_or u "password_hash" (VStr EmptyString)) w) as Hw.
      destruct (verify_password env password
                  (get_or u "password_hash" (VStr EmptyString)) w) as [[ex|[|]] wv] eqn:Hv;
        simpl in Hw; subst wv.
      * rewrite (login_found _ _ _ _ _ _ Hdb Hf). unfold bind at 1. now rewrite Hv.
      * now rewrite (login_success env username password w s u Hdb Hf Hv).
      * rewrite (login_wrong_password env username password w s u Hdb Hf); [reflexivity|].
        now rewrite Hv.
    + now rewrite (login_no_user env username password w s Hdb Hf).
  - unfold login, bind, read. now rewrite Hdb.
Qed.

Lemma for_each_world {A} (f : dict -> exn + A) docs w : snd (for_each f docs w) = w.
Proof.
  induction docs as [|d docs IH]; [reflexivity|].
  simpl. unfold bind at 1, lift. destruct (f d) as [e|a]; [reflexivity|].
  unfold bind at 1. destruct (for_each f docs w) as [[e|l] w'] eqn:E; simpl in IH; now subst.
Qed.

Lemma get_documents_world name w : snd (get_documents name w) = w.
Proof. unfold get_documents. now destruct (db w). Qed.

(** X13.  Login, OTP verification, the two public listings, the two
    admin listings and the identity resolution leave the world exactly
    as they found it, whatever their outcome. *)
Theorem read_only_routes env username password body user header w :
  snd (login env username password w) = w /\
  snd (otp_verify body w) = w /\
  snd (list_packages env w) = w /\
  snd (list_posts env w) = w /\
  snd (admin_leads user w) = w /\
  snd (admin_appointments user w) = w /\
  snd (current_user env header w) = w.
Proof.
  split; [apply login_world|].
  split.
  { unfold otp_verify, bind, read. destruct (db w) as [s|]; [|reflexivity].
    now destruct (negb (truthy_dict (find_one s "otprequest" (otp_filter body)))). }
  split.
  { unfold list_packages, bind, read, get_documents.
    destruct (db w) as [s|] eqn:Hdb; [|reflexivity]. rewrite Hdb. apply for_each_world. }
  split.
  { unfold list_posts, bind, read, get_documents.
    destruct (db w) as [s|] eqn:Hdb; [|reflexivity]. rewrite Hdb. apply for_each_world. }
  split.
  { unfold admin_leads. destruct (negb _); [reflexivity|apply get_documents_world]. }
  split.
  { unfold admin_appointments. destruct (negb _); [reflexivity|apply get_documents_world]. }
  apply current_user_world.
Qed.

(** ** One-time codes, composed *)

Lemma find_one_insert_some s name flt d :
  flt ⊆ d -> exists u, find_one (insert_one s name d) name flt = Some u.
Proof.
  intros Hsub. destruct (find_one s name flt) as [u|] eqn:Hf.
  - exists u. now apply find_one_insert_kept.
  - exists d. now apply find_one_insert_fresh.
Qed.

Lemma otp_start_configured body w s :
  db w = Some s ->
  otp_start body w
  = (inr (<["sent" := VBool true]> (<["dev_code" := VStr "123456"]> ∅)),
     with_db w (Some (insert_one s "otprequest"
                        (OTPRequest.model_dump
                           {| OTPRequest.channel := start_channel body;
                              OTPRequest.target := start_target body;
                              OTPRequest.code := "123456";
                              OTPRequest.purpose := start_purpose body;
                              OTPRequest.expires_at := utcnow w + timedelta_minutes 10;
                              OTPRequest.verified := false |})))).
Proof.
  intros Hdb. unfold otp_start, bind, read, create_document. now rewrite Hdb, Hdb.
Qed.

Lemma otp_dump_fields r :
  OTPRequest.model_dump r !! "target" = Some (VStr (OTPRequest.target r)) /\
  OTPRequest.model_dump r !! "code" = Some (VStr (OTPRequest.code r)) /\
  OTPRequest.model_dump r !! "purpose" = Some (VStr (OTPRequest.purpose r)) /\
  OTPRequest.model_dump r !! "expires_at" = Some (VTime (OTPRequest.expires_at r)) /\
  OTPRequest.model_dump r !! "verified" = Some (VBool (OTPRequest.verified r)).
Proof.
  unfold OTPRequest.model_dump.
  repeat split; rewrite ?lookup_insert_ne by discriminate; apply lookup_insert_eq.
Qed.

Lemma otp_verify_found body w s r :
  db w = Some s ->
  find_one s "otprequest" (otp_filter body) = Some r ->
  otp_verify body w = (inr {["verified" := VBool true]}, w).
Proof.
  intros Hdb Hf. unfold otp_verify, bind, read. rewrite Hdb, Hf.
  assert (Ht : truthy_dict (Some r) = true).
  { eapply find_one_truthy; [|exact Hf]. apply otp_filter_field. }
  now rewrite Ht.
Qed.

(** X14.  With the store configured, starting an OTP always succeeds,
    answers the code "123456" and stores a record that expires ten
    minutes later and is not verified; a verification with that code
    for the same target and purpose then succeeds at any later time,
    also long after the ten minutes. *)
Theorem otp_start_then_verify body w s w2 :
  db w = Some s ->
  db w2 = db (snd (otp_start body w)) ->
  exists r,
    fst (otp_start body w)
      = inr (<["sent" := VBool true]> (<["dev_code" := VStr "123456"]> ∅)) /\
    db (snd (otp_start body w)) = Some (insert_one s "otprequest" r) /\
    r !! "code" = Some (VStr "123456") /\
    r !! "expires_at" = Some (VTime (utcnow w + 600)) /\
    r !! "verified" = Some (VBool false) /\
    otp_verify {| verify_target := start_target body; verify_code := "123456";
                  verify_purpose := start_purpose body |} w2
    = (inr {["verified" := VBool true]}, w2).
Proof.
  intros Hdb Hdb2. rewrite (otp_start_configured body w s Hdb) in *. simpl in Hdb2.
  eexists. split; [reflexivity|]. split; [reflexivity|].
  match goal with
  | |- OTPRequest.model_dump ?r !! _ = _ /\ _ =>
      destruct (otp_dump_fields r) as (Ht & Hc & Hp & He & Hv)
  end.
  split; [exact Hc|]. split; [exact He|]. split; [exact Hv|].
  match type of Hdb2 with
  | _ = Some (insert_one _ _ ?d) =>
      destruct (find_one_insert_some s "otprequest"
                  (otp_filter {| verify_target := start_target body;
                                 verify_code := "123456";
                                 verify_purpose := start_purpose body |}) d) as [u Hu]
  end.
  - apply otp_filter_matches. unfold otp_record_matches. now repeat split.
  - eapply otp_verify_found; [exact Hdb2|exact Hu].
Qed.

Lemma otp_start_then_verify_witness :
  otp_verify {| verify_target := "z@x.com"; verify_code := "123456";
                verify_purpose := "signup" |}
    (Demo.later (snd (otp_start {| start_channel := "email"; start_target := "z@x.com";
                                   start_purpose := "signup" |} Demo.world)) 86400)
  = (inr {["verified" := VBool true]},
     Demo.later (snd (otp_start {| start_channel := "email"; start_target := "z@x.com";
                                   start_purpose := "signup" |} Demo.world)) 86400).
Proof.
  destruct (otp_start_then_verify
              {| start_channel := "email"; start_target := "z@x.com";
                 start_purpose := "signup" |} Demo.world Demo.store
              (Demo.later (snd (otp_start {| start_channel := "email";
                                             start_target := "z@x.com";
                                             start_purpose := "signup" |} Demo.world)) 86400)
              eq_refl eq_refl) as (r & _ & _ & _ & _ & _ & H).
  exact H.
Defined.

(** X15.  Starting an OTP keeps the invariant that every stored OTP
    record carries the code "123456"; and while that invariant holds, a
    verification with any other code is answered 400 "Invalid code". *)
Theorem otp_codes_are_fixed body attempt w s :
  db w = Some s ->
  dev_codes_only s ->
  (exists s1, db (snd (otp_start body w)) = Some s1 /\ dev_codes_only s1) /\
  (verify_code attempt <> "123456" ->
   otp_verify attempt w = (inl (HTTPException 400 "Invalid code"), w)).
Proof.
  intros Hdb Hinv. split.
  - rewrite (otp_start_configured body w s Hdb). simpl. eexists. split; [reflexivity|].
    unfold dev_codes_only. rewrite collection_insert_one. apply Forall_app. split; [exact Hinv|].
    apply Forall_cons. split; [|apply Forall_nil; exact I].
    match goal with
    | |- OTPRequest.model_dump ?r !! _ = _ => now destruct (otp_dump_fields r) as (_ & Hc & _)
    end.
  - intros Hne. unfold otp_verify, bind, read. rewrite Hdb.
    assert (Hf : find_one s "otprequest" (otp_filter attempt) = None).
    { apply find_one_None. intros d Hin Hsub.
      apply otp_filter_matches in Hsub as (_ & Hc & _).
      unfold dev_codes_only in Hinv. rewrite Forall_forall in Hinv.
      specialize (Hinv d Hin). congruence. }
    now rewrite Hf.
Qed.

Lemma otp_codes_are_fixed_witness :
  dev_codes_only Demo.store /\
  otp_verify {| verify_target := "a@x.com"; verify_code := "000000";
                verify_purpose := "login" |} Demo.world
  = (inl (HTTPException 400 "Invalid code"), Demo.world).
Proof.
  assert (Hinv : dev_codes_only Demo.store).
  { unfold dev_codes_only. apply Forall_cons. split; [vm_compute; reflexivity|].
    apply Forall_nil. exact I. }
  split; [exact Hinv|].
  apply (otp_codes_are_fixed
           {| start_channel := "email"; start_target := "a@x.com"; start_purpose := "login" |}
           {| verify_target := "a@x.com"; verify_code := "000000"; verify_purpose := "login" |}
           Demo.world Demo.store eq_refl Hinv).
  simpl. discriminate.
Defined.

(** ** Listings *)

Lemma for_each_fst {A} (f : dict -> exn + A) docs w l :
  fst (for_each f docs w) = inr l <-> Forall2 (fun d a => f d = inr a) docs l.
Proof.
  revert l. induction docs as [|d docs IH]; intros l; simpl.
  - split.
    + intros [= <-]. constructor.
    + intros H. inversion H. reflexivity.
  - unfold bind at 1, lift. destruct (f d) as [e|a] eqn:Hd; simpl.
    + split; [discriminate|]. intros H. inversion H; subst. congruence.
    + unfold bind at 1. destruct (for_each f docs w) as [[e|r] w1] eqn:E; simpl in *.
      * split; [discriminate|]. intros H. inversion H as [|? b ? r' Hb Hr]; subst.
        apply IH in Hr. discriminate.
      * split.
        -- intros [= <-]. constructor; [exact Hd|]. now apply IH.
        -- intros H. inversion H as [|? b ? r' Hb Hr]; subst.
           apply IH in Hr. congruence.
Qed.

Lemma for_each_inr {A} (f : dict -> exn + A) docs w l w' :
  for_each f docs w = (inr l, w') <->
  w' = w /\ Forall2 (fun d a => f d = inr a) docs l.
Proof.
  pose proof (for_each_world f docs w) as Hw.
  pose proof (for_each_fst f docs w l) as Hf.
  destruct (for_each f docs w) as [r w1]. simpl in *. subst w1. split.
  - intros [= -> <-]. split; [reflexivity|]. now apply Hf.
  - intros [-> H]. apply Hf in H. now rewrite H.
Qed.

Lemma for_each_inl {A} (f : dict -> exn + A) docs w d e :
  d ∈ docs -> f d = inl e -> exists e', for_each f docs w = (inl e', w).
Proof.
  intros Hin Hd. induction docs as [|x docs IH]; [inversion Hin|].
  simpl. unfold bind at 1, lift. destruct (f x) as [ex|a] eqn:Hx; [now exists ex|].
  apply elem_of_cons in Hin as [->|Hin]; [congruence|].
  destruct (IH Hin) as [e' He']. exists e'. unfold bind. now rewrite He'.
Qed.

Lemma list_packages_configured env w s :
  db w = Some s ->
  list_packages env w
  = for_each (fun doc => package_validate env (delete "_id" doc)) (collection s "package") w.
Proof.
  intros Hdb. unfold list_packages, bind, read, get_documents. rewrite Hdb. cbn beta iota.
  rewrite Hdb. reflexivity.
Qed.

Lemma list_posts_configured env w s :
  db w = Some s ->
  list_posts env w
  = for_each (fun doc => blogpost_validate env (delete "_id" doc)) (collection s "blogpost") w.
Proof.
  intros Hdb. unfold list_posts, bind, read, get_documents. rewrite Hdb. cbn beta iota.
  rewrite Hdb. reflexivity.
Qed.

(** X16.  The public listings are all or nothing: GET /packages
    answers a list exactly when every stored package document, with
    its [_id] removed, validates, and then the list holds the validated
    packages in store order, one per document; a single stored
    document that fails validation makes the whole listing fail.  The
    same holds for GET /blog. *)
Theorem listings_all_or_nothing env w s :
  db w = Some s ->
  (forall pkgs,
      list_packages env w = (inr pkgs, w) <->
      Forall2 (fun d p => package_validate env (delete "_id" d) = inr p)
        (collection s "package") pkgs) /\
  (forall d e, d ∈ collection s "package" ->
               package_validate env (delete "_id" d) = inl e ->
               exists e', list_packages env w = (inl e', w)) /\
  (forall posts,
      list_posts env w = (inr posts, w) <->
      Forall2 (fun d p => blogpost_validate env (delete "_id" d) = inr p)
        (collection s "blogpost") posts) /\
  (forall d e, d ∈ collection s "blogpost" ->
               blogpost_validate env (delete "_id" d) = inl e ->
               exists e', list_posts env w = (inl e', w)).
Proof.
  intros Hdb.
  rewrite (list_packages_configured env w s Hdb), (list_posts_configured env w s Hdb).
  split; [|split; [|split]].
  - intros pkgs. rewrite for_each_inr. split; [now intros [_ H]|now split].
  - intros d e Hin Hd.
    now apply (for_each_inl (fun doc => package_validate env (delete "_id" doc)) _ w d e).
  - intros posts. rewrite for_each_inr. split; [now intros [_ H]|now split].
  - intros d e Hin Hd.
    now apply (for_each_inl (fun doc => blogpost_validate env (delete "_id" doc)) _ w d e).
Qed.

Lemma listings_all_or_nothing_witness :
  exists e,
    list_packages Demo.env
      (snd (create_package Demo.package Scenario.root_user Scenario.world))
    = (inl e, snd (create_package Demo.package Scenario.root_user Scenario.world)).
Proof.
  destruct (listings_all_or_nothing Demo.env
              (snd (create_package Demo.package Scenario.root_user Scenario.world))
              (insert_one Scenario.store "package" (Package.model_dump Demo.package))
              eq_refl) as (_ & Hbad & _).
  apply (Hbad (Package.model_dump Demo.package) ValidationError).
  - rewrite collection_insert_one. apply elem_of_app. right. apply list_elem_of_here.
  - reflexivity.
Defined.

Lemma create_package_admin pkg user w s :
  db w = Some s ->
  get user "role" = VStr "admin" ->
  create_package pkg user w
  = (inr {["ok" := VBool true]},
     with_db w (Some (insert_one s "package" (Package.model_dump pkg)))).
Proof.
  intros Hdb Hr. unfold create_package. rewrite (bool_decide_eq_true_2 _ Hr).
  cbn [negb]. unfold bind, create_document. now rewrite Hdb.
Qed.

Lemma create_post_admin post user w s :
  db w = Some s ->
  get user "role" = VStr "admin" ->
  create_post post user w
  = (inr {["ok" := VBool true]},
     with_db w (Some (insert_one s "blogpost" (BlogPost.model_dump post)))).
Proof.
  intros Hdb Hr. unfold create_post. rewrite (bool_decide_eq_true_2 _ Hr).
  cbn [negb]. unfold bind, create_document. now rewrite Hdb.
Qed.

(** X17.  When an administrator creates a package whose stored document
    validates back to the package, and the listing answered before,
    then the listing afterwards answers the same packages followed by
    the new one.  Nothing checks the slug: creating the same package
    twice lists it twice. *)
Theorem created_package_is_listed env pkg user w s old :
  db w = Some s ->
  get user "role" = VStr "admin" ->
  list_packages env w = (inr old, w) ->
  package_validate env (delete "_id" (Package.model_dump pkg)) = inr pkg ->
  exists w1,
    create_package pkg user w = (inr {["ok" := VBool true]}, w1) /\
    list_packages env w1 = (inr (old ++ [pkg])%list, w1) /\
    exists w2,
      create_package pkg user w1 = (inr {["ok" := VBool true]}, w2) /\
      list_packages env w2 = (inr (old ++ [pkg; pkg])%list, w2).
Proof.
  intros Hdb Hr Hold Hv.
  rewrite (list_packages_configured env w s Hdb) in Hold.
  apply for_each_inr in Hold as [_ Hold].
  set (s1 := insert_one s "package" (Package.model_dump pkg)).
  set (s2 := insert_one s1 "package" (Package.model_dump pkg)).
  exists (with_db w (Some s1)).
  split; [now apply create_package_admin|].
  assert (H1 : Forall2 (fun d p => package_validate env (delete "_id" d) = inr p)
                 (collection s1 "package") (old ++ [pkg])%list).
  { unfold s1. rewrite collection_insert_one. apply Forall2_app; [exact Hold|].
    now repeat constructor. }
  split.
  { rewrite (list_packages_configured env (with_db w (Some s1)) s1 eq_refl).
    apply for_each_inr. now split. }
  exists (with_db (with_db w (Some s1)) (Some s2)).
  split; [now apply create_package_admin|].
  rewrite (list_packages_configured env (with_db (with_db w (Some s1)) (Some s2)) s2 eq_refl).
  apply for_each_inr.
  split; [reflexivity|].
  unfold s2. rewrite collection_insert_one.
  replace (old ++ [pkg; pkg])%list with ((old ++ [pkg]) ++ [pkg])%list
    by (now rewrite <- app_assoc).
  apply Forall2_app; [exact H1|]. now repeat constructor.
Qed.

Lemma created_package_is_listed_witness :
  exists w1,
    create_package Demo.package Scenario.root_user Scenario.world
      = (inr {["ok" := VBool true]}, w1) /\
    list_packages Scenario.env w1 = (inr [Demo.package], w1).
Proof.
  destruct (created_package_is_listed Scenario.env Demo.package Scenario.root_user
              Scenario.world Scenario.store [])
    as (w1 & Hc & Hl & _).
  - reflexivity.
  - vm_compute. reflexivity.
  - vm_compute. reflexivity.
  - vm_compute. reflexivity.
  - exists w1. split; [exact Hc|exact Hl].
Defined.

(** X18.  The same for blog posts: after an administrator creates a
    post whose stored document validates back to the post, GET /blog
    answers the posts it answered before followed by the new one. *)
Theorem created_post_is_listed env post user w s old :
  db w = Some s ->
  get user "role" = VStr "admin" ->
  list_posts env w = (inr old, w) ->
  blogpost_validate env (delete "_id" (BlogPost.model_dump post)) = inr post ->
  exists w1,
    create_post post user w = (inr {["ok" := VBool true]}, w1) /\
    list_posts env w1 = (inr (old ++ [post])%list, w1).
Proof.
  intros Hdb Hr Hold Hv.
  rewrite (list_posts_configured env w s Hdb) in Hold.
  apply for_each_inr in Hold as [_ Hold].
  set (s1 := insert_one s "blogpost" (BlogPost.model_dump post)).
  exists (with_db w (Some s1)).
  split; [now apply create_post_admin|].
  rewrite (list_posts_configured env (with_db w (Some s1)) s1 eq_refl). apply for_each_inr.
  split; [reflexivity|].
  unfold s1. rewrite collection_insert_one. apply Forall2_app; [exact Hold|].
  now repeat constructor.
Qed.

Lemma created_post_is_listed_witness :
  exists w1,
    create_post Demo.post Scenario.root_user Scenario.world
      = (inr {["ok" := VBool true]}, w1) /\
    list_posts Scenario.env w1 = (inr [Demo.post], w1).
Proof.
  destruct (created_post_is_listed Scenario.env Demo.post Scenario.root_user
              Scenario.world Scenario.store [])
    as (w1 & Hc & Hl).
  - reflexivity.
  - vm_compute. reflexivity.
  - vm_compute. reflexivity.
  - vm_compute. reflexivity.
  - exists w1. split; [exact Hc|exact Hl].
Defined.

(** ** Leads and appointments *)

Lemma admin_leads_admin user w s :
  db w = Some s -> get user "role" = VStr "admin" ->
  admin_leads user w = (inr (collection s "lead"), w).
Proof.
  intros Hdb Hr. unfold admin_leads. rewrite (bool_decide_eq_true_2 _ Hr).
  cbn [negb]. unfold get_documents. now rewrite Hdb.
Qed.

Lemma admin_appointments_admin user w s :
  db w = Some s -> get user "role" = VStr "admin" ->
  admin_appointments user w = (inr (collection s "appointment"), w).
Proof.
  intros Hdb Hr. unfold admin_appointments. rewrite (bool_decide_eq_true_2 _ Hr).
  cbn [negb]. unfold get_documents. now rewrite Hdb.
Qed.

(** X19.  With the store configured, the public lead and appointment
    routes always succeed and store the submitted record; an
    administrator's listing afterwards returns the records it returned
    before followed by the new one, and creating a lead does not show
    in the appointments. *)
Theorem created_lead_is_visible_to_admin lead appt user w s :
  db w = Some s ->
  get user "role" = VStr "admin" ->
  (exists w1,
      create_lead lead w = (inr {["ok" := VBool true]}, w1) /\
      admin_leads user w1
        = (inr (collection s "lead" ++ [Lead.model_dump lead])%list, w1) /\
      admin_appointments user w1 = (inr (collection s "appointment"), w1)) /\
  (exists w1,
      create_appointment appt w = (inr {["ok" := VBool true]}, w1) /\
      admin_appointments user w1
        = (inr (collection s "appointment" ++ [Appointment.model_dump appt])%list, w1)).
Proof.
  intros Hdb Hr.
  set (s1 := insert_one s "lead" (Lead.model_dump lead)).
  set (s2 := insert_one s "appointment" (Appointment.model_dump appt)).
  split.
  - exists (with_db w (Some s1)).
    split.
    { unfold create_lead, bind, read, create_document. rewrite Hdb. cbn beta iota.
      now rewrite Hdb. }
    split.
    + rewrite (admin_leads_admin user (with_db w (Some s1)) s1 eq_refl Hr).
      unfold s1. now rewrite collection_insert_one.
    + rewrite (admin_appointments_admin user (with_db w (Some s1)) s1 eq_refl Hr).
      unfold s1. now rewrite collection_insert_one_other by discriminate.
  - exists (with_db w (Some s2)).
    split.
    { unfold create_appointment, bind, read, create_document. rewrite Hdb. cbn beta iota.
      now rewrite Hdb. }
    rewrite (admin_appointments_admin user (with_db w (Some s2)) s2 eq_refl Hr).
    unfold s2. now rewrite collection_insert_one.
Qed.

Lemma created_lead_is_visible_to_admin_witness :
  exists w1,
    create_lead Scenario.lead Scenario.world = (inr {["ok" := VBool true]}, w1) /\
    admin_leads Scenario.root_user w1 = (inr [Lead.model_dump Scenario.lead], w1).
Proof.
  destruct (created_lead_is_visible_to_admin Scenario.lead Scenario.appointment
              Scenario.root_user Scenario.world Scenario.store)
    as [(w1 & Hc & Hl & _) _].
  - reflexivity.
  - vm_compute. reflexivity.
  - exists w1. split; [exact Hc|exact Hl].
Defined.

(** ** Uploads and payments *)

Lemma current_user_resolved env header w user :
  fst (current_user env header w) = inr user ->
  current_user env header w = (inr user, w).
Proof.
  intros Hu. pose proof (current_user_world env header w) as Hw.
  destruct (current_user env header w) as [r w']. simpl in *. congruence.
Qed.

(** X20.  An upload by any authenticated identity, whatever its role,
    whose email the schema accepts, stores one [upload] record and
    answers the URL "/uploads/" followed by the client's file name,
    character for character; when the schema rejects the identity's
    email, the upload raises the validation error and stores nothing. *)
Theorem upload_keeps_filename env validate_email header filename user e w s :
  fst (current_user env header w) = inr user ->
  db w = Some s ->
  get user "email" = VStr e ->
  post_upload env validate_email header (Some filename) w
  = match validate_email e with
    | Some e' =>
        (inr {["url" := VStr ("/uploads/" ++ filename)]},
         with_db w (Some (insert_one s "upload"
                            (Upload.model_dump
                               {| Upload.user_email := Some e';
                                  Upload.filename := filename;
                                  Upload.url := "/uploads/" ++ filename;
                                  Upload.purpose := None |}))))
    | None => (inl ValidationError, w)
    end.
Proof.
  intros Hu Hdb He. unfold post_upload.
  rewrite (bind_inr _ _ _ _ _ (current_user_resolved env header w user Hu)).
  unfold upload, Upload_validate. rewrite He. cbn [str_opt].
  destruct (validate_email e) as [e'|]; [|reflexivity].
  unfold bind, ret, create_document. cbn beta iota. now rewrite Hdb.
Qed.

Lemma upload_keeps_filename_witness :
  post_upload Demo.env Scenario.accept_at (Demo.bearer (Demo.token_for "a@x.com" 0))
    (Some "../../etc/passwd") Demo.world
  = (inr {["url" := VStr "/uploads/../../etc/passwd"]},
     with_db Demo.world
       (Some (insert_one Demo.store "upload"
                (Upload.model_dump
                   {| Upload.user_email := Some "a@x.com";
                      Upload.filename := "../../etc/passwd";
                      Upload.url := "/uploads/../../etc/passwd";
                      Upload.purpose := None |})))).
Proof.
  apply (upload_keeps_filename Demo.env Scenario.accept_at
           (Demo.bearer (Demo.token_for "a@x.com" 0)) "../../etc/passwd"
           (identity_of Demo.alice (VStr "a@x.com")) "a@x.com" Demo.world Demo.store).
  - vm_compute. reflexivity.
  - reflexivity.
  - vm_compute. reflexivity.
Defined.

(** X21.  Payment initiation answers any authenticated identity with
    amount 0 and an order id made from the clock reading alone: two
    requests at the same clock reading get the same answer, whoever
    makes them and whatever package they name.  It writes nothing. *)
Theorem payment_init_from_clock_only env timestamp_text
    header1 body1 w1 user1 header2 body2 w2 user2 :
  fst (current_user env header1 w1) = inr user1 ->
  fst (current_user env header2 w2) = inr user2 ->
  utcnow w1 = utcnow w2 ->
  post_payments_init env timestamp_text header1 body1 w1
    = (inr (<["order_id" := VStr ("ORDER_" ++ timestamp_text (utcnow w1))]>
            (<["amount" := VInt 0]> ∅)), w1) /\
  fst (post_payments_init env timestamp_text header1 body1 w1)
    = fst (post_payments_init env timestamp_text header2 body2 w2).
Proof.
  intros H1 H2 Hclock. unfold post_payments_init.
  rewrite (bind_inr _ _ _ _ _ (current_user_resolved env header1 w1 user1 H1)).
  rewrite (bind_inr _ _ _ _ _ (current_user_resolved env header2 w2 user2 H2)).
  unfold payment_init, bind, read, ret. cbn beta iota. rewrite Hclock. now split.
Qed.

Lemma payment_init_from_clock_only_witness :
  fst (post_payments_init Demo.env (fun _ => "1000.0")
         (Demo.bearer (Demo.token_for "a@x.com" 0)) {| package_slug := "basic" |} Demo.world)
  = fst (post_payments_init Demo.env (fun _ => "1000.0")
           (Demo.bearer (Demo.token_for "b@x.com" 0)) {| package_slug := "pro" |} Demo.world).
Proof.
  apply (payment_init_from_clock_only Demo.env (fun _ => "1000.0")
           (Demo.bearer (Demo.token_for "a@x.com" 0)) {| package_slug := "basic" |} Demo.world
           (identity_of Demo.alice (VStr "a@x.com"))
           (Demo.bearer (Demo.token_for "b@x.com" 0)) {| package_slug := "pro" |} Demo.world
           (identity_of Demo.bob (VStr "b@x.com"))).
  - vm_compute. reflexivity.
  - vm_compute. reflexivity.
  - reflexivity.
Defined.
